(** * yiddish-cleaner: the two speech scripts, embedded and verified

    [scripts/align.py] (forced alignment through WhisperX) and
    [scripts/whisper_transcribe.py] (transcription through openai-whisper)
    are two command-line programs.  Each parses its arguments, calls the
    wrapped library, reshapes the nested result into a flat list of word
    records and prints one JSON document.

    The embedding is shallow.  Python values are an inductive type, the
    builtins the scripts use ([dict.get], iteration, [round],
    [str.strip], true division) are functions that return a value or the
    exception Python raises, and [main] is written in a small monad that
    threads the trace of observable events (library calls, printed JSON
    documents) together with the three ways control can leave a statement:
    normally, by a raised exception, or by [sys.exit].  Everything outside
    the scripts (the filesystem, argparse, the two libraries) is a record of
    oracles, so a theorem quantified over that record speaks about every
    behaviour of the surroundings. *)

From Stdlib Require Import List ZArith NArith Bool String Ascii Lia.
From Stdlib Require Import Floats.SpecFloat.
Import ListNotations.

Set Implicit Arguments.

(* ===================================================================== *)
(** ** Python strings *)
(* ===================================================================== *)

(** A Python [str] is a sequence of Unicode code points.  The transcript is
    Yiddish text, so code points above 255 are the normal case. *)
Definition pystr := list N.

(** An ASCII literal of the source, as a [pystr]. *)
Definition lit (s : string) : pystr := map N_of_ascii (list_ascii_of_string s).

Fixpoint pystr_eqb (a b : pystr) : bool :=
  match a, b with
  | [], [] => true
  | x :: a', y :: b' => N.eqb x y && pystr_eqb a' b'
  | _, _ => false
  end.

(** [str.isspace] on one code point: the 29 code points Python 3 treats as
    whitespace (bidirectional type WS, B or S, or category Zs). *)
Definition py_isspace (c : N) : bool :=
  ((9 <=? c) && (c <=? 13) || (28 <=? c) && (c <=? 32)
   || (c =? 133) || (c =? 160) || (c =? 5760)
   || (8192 <=? c) && (c <=? 8202)
   || (c =? 8232) || (c =? 8233) || (c =? 8239) || (c =? 8287)
   || (c =? 12288))%N.

Fixpoint lstrip (s : pystr) : pystr :=
  match s with
  | c :: r => if py_isspace c then lstrip r else s
  | [] => []
  end.

Definition rstrip (s : pystr) : pystr := rev (lstrip (rev s)).

(** [s.strip()] *)
Definition strip (s : pystr) : pystr := rstrip (lstrip s).

(* ===================================================================== *)
(** ** Python floats *)
(* ===================================================================== *)

(** A Python [float] is an IEEE 754 binary64 number; [spec_float] with
    precision 53 and maximal exponent 1024 is its specification. *)
Definition float := spec_float.
Definition prec : Z := 53.
Definition emax : Z := 1024.

Definition float_of_Z (z : Z) : float :=
  match z with
  | Z0 => S754_zero false
  | Zpos p => S754_finite false p 0
  | Zneg p => S754_finite true p 0
  end.

(** The correctly rounded quotient of two integers ([SFdiv] rounds to
    nearest, ties to even, and does not need normalised operands). *)
Definition nearest_quotient (a b : Z) : float :=
  SFdiv prec emax (float_of_Z a) (float_of_Z b).

(** [m * 2^e * 1000] rounded to the nearest integer, ties to even. *)
Definition thousandths (m : positive) (e : Z) : Z :=
  match e with
  | Zneg k =>
      let d := Z.pow_pos 2 k in
      let (q, r) := Z.div_eucl (Zpos m * 1000) d in
      match Z.compare (2 * r) d with
      | Lt => q
      | Gt => q + 1
      | Eq => if Z.even q then q else q + 1
      end
  | _ => Zpos m * 1000 * 2 ^ e
  end.

(** [round(x, 3)] on a float: the decimal with three fractional digits
    nearest to the exact value of [x] (ties to even), converted back to the
    nearest float; the sign of [x] is kept when the result is zero, and
    infinities and NaN round to themselves. *)
Definition float_round3 (x : float) : float :=
  match x with
  | S754_finite s m e =>
      match thousandths m e with
      | Zpos n => SFdiv prec emax (S754_finite s n 0) (float_of_Z 1000)
      | _ => S754_zero s
      end
  | _ => x
  end.

(** The exact value of a float as [num * 2^exp], for comparisons. *)
Inductive xnum :=
| XNaN
| XInf (neg : bool)
| XFin (num : Z) (exp : Z).

Definition xnum_of_float (x : float) : xnum :=
  match x with
  | S754_zero _ => XFin 0 0
  | S754_infinity s => XInf s
  | S754_nan => XNaN
  | S754_finite s m e => XFin (if s then Zneg m else Zpos m) e
  end.

(** [a <= b] on exact values; every comparison with NaN is false. *)
Definition xnum_leb (a b : xnum) : bool :=
  match a, b with
  | XNaN, _ | _, XNaN => false
  | XInf true, _ => true
  | _, XInf false => true
  | XInf false, _ => false
  | _, XInf true => false
  | XFin n1 e1, XFin n2 e2 =>
      let e := Z.min e1 e2 in
      (n1 * 2 ^ (e1 - e) <=? n2 * 2 ^ (e2 - e))%Z
  end.

(* ===================================================================== *)
(** ** Python values, exceptions and builtins *)
(* ===================================================================== *)

(** An exception object as the scripts observe it: [type(e).__name__],
    [str(e)], and whether it is an instance of [ImportError].  Only
    instances of [Exception] are modelled (no [KeyboardInterrupt]). *)
Record exn := {
  exc_type : pystr;
  exc_msg : pystr;
  exc_is_import_error : bool
}.

(** The values that cross the boundary with the libraries and that
    [json.dumps] serialises: what a library returns is taken to be made of
    these.  A [dict] keeps insertion order, as in Python 3.7 and later, and
    is looked up by its first matching key. *)
#[warnings="-register-all"]
Inductive pyval :=
| PNone
| PBool (b : bool)
| PInt (z : Z)
| PFloat (x : float)
| PStr (s : pystr)
| PList (l : list pyval)
| PDict (d : list (pystr * pyval)).

Definition dict := list (pystr * pyval).

(** The value of an expression: a result or the exception it raises. *)
Inductive result (A : Type) :=
| Ok (a : A)
| Err (e : exn).
Arguments Ok {A} a.
Arguments Err {A} e.

Definition rbind {A B} (r : result A) (k : A -> result B) : result B :=
  match r with
  | Ok a => k a
  | Err e => Err e
  end.

Notation "'let?' x ':=' r 'in' k" := (rbind r (fun x => k))
  (at level 10, x name, r at level 100, k at level 200).

Definition type_name (v : pyval) : string :=
  match v with
  | PNone => "NoneType"
  | PBool _ => "bool"
  | PInt _ => "int"
  | PFloat _ => "float"
  | PStr _ => "str"
  | PList _ => "list"
  | PDict _ => "dict"
  end.

Definition builtin_error (ty msg : string) : exn :=
  {| exc_type := lit ty; exc_msg := lit msg; exc_is_import_error := false |}.

Definition no_attribute_get (v : pyval) : exn :=
  builtin_error "AttributeError"
    ("'" ++ type_name v ++ "' object has no attribute 'get'").

Definition not_iterable (v : pyval) : exn :=
  builtin_error "TypeError" ("'" ++ type_name v ++ "' object is not iterable").

Definition no_round (v : pyval) : exn :=
  builtin_error "TypeError"
    ("type " ++ type_name v ++ " doesn't define __round__ method").

Fixpoint dict_lookup (k : pystr) (d : dict) : option pyval :=
  match d with
  | [] => None
  | (k', v) :: d' => if pystr_eqb k k' then Some v else dict_lookup k d'
  end.

Definition dict_get (d : dict) (k : pystr) (default : pyval) : pyval :=
  match dict_lookup k d with
  | Some v => v
  | None => default
  end.

(** [d[k] = v] *)
Fixpoint dict_set (d : dict) (k : pystr) (v : pyval) : dict :=
  match d with
  | [] => [(k, v)]
  | (k', v') :: d' =>
      if pystr_eqb k k' then (k', v) :: d' else (k', v') :: dict_set d' k v
  end.

(** [v.get(k, default)]: only a dict has the method. *)
Definition py_get (v : pyval) (k : pystr) (default : pyval) : result pyval :=
  match v with
  | PDict d => Ok (dict_get d k default)
  | _ => Err (no_attribute_get v)
  end.

(** The items a [for] loop over [v] visits: the elements of a list, the
    characters of a string, the keys of a dict. *)
Definition py_iter (v : pyval) : result (list pyval) :=
  match v with
  | PList l => Ok l
  | PStr s => Ok (map (fun c => PStr [c]) s)
  | PDict d => Ok (map (fun kv => PStr (fst kv)) d)
  | _ => Err (not_iterable v)
  end.

(** [round(v, 3)]: a float is rounded, an int is returned as it is, a bool
    becomes the int it stands for; nothing else has [__round__]. *)
Definition py_round3 (v : pyval) : result pyval :=
  match v with
  | PFloat x => Ok (PFloat (float_round3 x))
  | PInt z => Ok (PInt z)
  | PBool b => Ok (PInt (if b then 1 else 0))
  | _ => Err (no_round v)
  end.

(** [a / b] on two ints. *)
Definition int_truediv (a b : Z) : result float :=
  if (b =? 0)%Z then Err (builtin_error "ZeroDivisionError" "division by zero")
  else
    match nearest_quotient a b with
    | S754_infinity _ =>
        Err (builtin_error "OverflowError"
               "integer division result too large for a float")
    | q => Ok q
    end.

(** The exact value of a number; a bool counts as the int it stands for. *)
Definition xnum_of (v : pyval) : option xnum :=
  match v with
  | PBool b => Some (XFin (if b then 1 else 0) 0)
  | PInt z => Some (XFin z 0)
  | PFloat x => Some (xnum_of_float x)
  | _ => None
  end.

(** [a <= b] holds between two numbers. *)
Definition num_le (a b : pyval) : bool :=
  match xnum_of a, xnum_of b with
  | Some x, Some y => xnum_leb x y
  | _, _ => false
  end.

(* ===================================================================== *)
(** ** Processes: traces, exceptions and [sys.exit] *)
(* ===================================================================== *)

Inductive stream := Stdout | Stderr.

(** An object owned by a library (a loaded model, alignment metadata). *)
Inductive handle := Handle (id : nat).

(** The array [whisperx.load_audio] returns; the script only takes its
    length and hands it on. *)
Record ndarray := { nd_len : N }.

(** What an invocation does that its caller or the libraries can see. *)
Inductive event :=
| ELoadAlignModel (language_code device : pystr)
| ELoadAudio (path : pystr)
| EAlign (segments : pyval) (model metadata : handle) (audio : ndarray)
         (device : pystr)
| ELoadModel (name device : pystr)
| ETranscribe (model : handle) (audio language : pystr)
| EPrint (s : stream) (doc : pyval)   (* print(json.dumps(doc), file=s) *)
| EText (s : stream).                 (* usage, help or traceback text *)

(** How control leaves a statement. *)
Inductive control (A : Type) :=
| Normal (a : A)
| Raised (e : exn)
| Exited (code : Z).
Arguments Normal {A} a.
Arguments Raised {A} e.
Arguments Exited {A} code.

Definition proc (A : Type) : Type := list event * control A.

Definition ret {A} (a : A) : proc A := ([], Normal a).

Definition bind {A B} (m : proc A) (k : A -> proc B) : proc B :=
  match m with
  | (tr, Normal a) => let (tr', c) := k a in (tr ++ tr', c)
  | (tr, Raised e) => (tr, Raised e)
  | (tr, Exited n) => (tr, Exited n)
  end.

Notation "x <- m ;; k" := (bind m (fun x => k))
  (at level 61, m at next level, right associativity).
Notation "m ;; k" := (bind m (fun _ => k))
  (at level 61, right associativity).

Definition emit (ev : event) : proc unit := ([ev], Normal tt).
Definition raise {A} (e : exn) : proc A := ([], Raised e).
Definition sys_exit {A} (code : Z) : proc A := ([], Exited code).

(** A pure expression evaluated inside a process. *)
Definition lift {A} (r : result A) : proc A :=
  match r with
  | Ok a => ret a
  | Err e => raise e
  end.

(** A library call: it is recorded, then returns or raises. *)
Definition call {A} (ev : event) (r : result A) : proc A := emit ev ;; lift r.

(** [print(json.dumps(doc), file=s)]; writing to the stream is taken to
    succeed. *)
Definition print_json (s : stream) (doc : pyval) : proc unit := emit (EPrint s doc).

(** [if c: body] *)
Definition when (c : bool) (body : proc unit) : proc unit :=
  if c then body else ret tt.

(** [try: body except C as e: handler(e)], where [catches] tells the
    instances of [C].  [sys.exit] inside [body] is not caught. *)
Definition try_except {A} (body : proc A) (catches : exn -> bool)
    (handler : exn -> proc A) : proc A :=
  match body with
  | (tr, Raised e) =>
      if catches e then let (tr', c) := handler e in (tr ++ tr', c)
      else (tr, Raised e)
  | other => other
  end.

Definition except_Exception (e : exn) : bool := true.
Definition except_ImportError (e : exn) : bool := exc_is_import_error e.

(** What argparse makes of the command line: a namespace, or it ends the
    process itself (usage and an error on stderr with status 2; the help
    text on stdout with status 0). *)
Inductive parsed (A : Type) :=
| Namespace (a : A)
| ParserError
| ParserHelp.
Arguments Namespace {A} a.
Arguments ParserError {A}.
Arguments ParserHelp {A}.

Definition parse_args {A} (p : parsed A) : proc A :=
  match p with
  | Namespace a => ret a
  | ParserError => emit (EText Stderr) ;; sys_exit 2
  | ParserHelp => emit (EText Stdout) ;; sys_exit 0
  end.

(** A finished process. *)
Record process := {
  trace : list event;
  exit_code : Z;
  uncaught : option exn
}.

(** Running [main()] as a script: falling off the end is status 0,
    [sys.exit(n)] is status [n], an exception nobody caught prints a
    traceback on stderr and is status 1. *)
Definition run (m : proc unit) : process :=
  match m with
  | (tr, Normal _) => {| trace := tr; exit_code := 0; uncaught := None |}
  | (tr, Exited n) => {| trace := tr; exit_code := n; uncaught := None |}
  | (tr, Raised e) =>
      {| trace := tr ++ [EText Stderr]; exit_code := 1; uncaught := Some e |}
  end.

(* ===================================================================== *)
(** ** scripts/align.py *)
(* ===================================================================== *)

Module Align.

(** The namespace argparse returns.  The defaults of the optional
    arguments are ["yi"], ["large-v2"], ["auto"] and ["float16"]. *)
Record args := {
  audio_path : pystr;
  text_path : pystr;
  language : pystr;
  model : pystr;
  device : pystr;
  compute_type : pystr
}.

Definition with_defaults (audio text : pystr) : args :=
  {| audio_path := audio; text_path := text; language := lit "yi";
     model := lit "large-v2"; device := lit "auto";
     compute_type := lit "float16" |}.

(** The surroundings of one invocation. *)
Record env := {
  argv : parsed args;                       (* parser.parse_args() *)
  path_exists : pystr -> bool;              (* os.path.exists *)
  read_text : pystr -> result pystr;        (* open(p, 'r', encoding='utf-8').read() *)
  import_whisperx_torch : option exn;       (* import whisperx; import torch *)
  cuda_is_available : bool;                 (* torch.cuda.is_available() *)
  load_align_model : pystr -> pystr -> result (handle * handle);
  load_audio : pystr -> result ndarray;
  align : pyval -> handle -> handle -> ndarray -> pystr -> result pyval
}.

(** Lines 56-59: the device the libraries are given. *)
Definition resolve_device (cuda : bool) (requested : pystr) : pystr :=
  if pystr_eqb requested (lit "auto") then
    if cuda then lit "cuda" else lit "cpu"
  else requested.

(** Lines 62-64: the compute type after the CPU adjustment. *)
Definition adjust_compute_type (device requested : pystr) : pystr :=
  if pystr_eqb device (lit "cpu") && pystr_eqb requested (lit "float16")
  then lit "int8"
  else requested.

(** Lines 100-108: the record built for one word of the library result.
    The score is looked up once: [Some] is the case ['score' in word_data].
    The test is only reached on a dict, since [.get] raised on anything
    else. *)
Definition word_record (word_data : pyval) : result pyval :=
  let? w := py_get word_data (lit "word") (PStr []) in
  let? s0 := py_get word_data (lit "start") (PInt 0) in
  let? s := py_round3 s0 in
  let? e0 := py_get word_data (lit "end") (PInt 0) in
  let? e := py_round3 e0 in
  let word := [(lit "word", w); (lit "start", s); (lit "end", e)] in
  match word_data with
  | PDict d =>
      match dict_lookup (lit "score") d with
      | Some score =>
          let? c := py_round3 score in
          Ok (PDict (dict_set word (lit "confidence") c))
      | None => Ok (PDict word)
      end
  | _ => Err (no_attribute_get word_data)
  end.

(** Lines 99-108: the inner loop, appending to [words]. *)
Fixpoint each_word (items : list pyval) (words : list pyval)
  : result (list pyval) :=
  match items with
  | [] => Ok words
  | word_data :: rest =>
      let? word := word_record word_data in
      each_word rest (words ++ [word])
  end.

(** Lines 98-108: the outer loop. *)
Fixpoint each_segment (items : list pyval) (words : list pyval)
  : result (list pyval) :=
  match items with
  | [] => Ok words
  | segment :: rest =>
      let? ws := py_get segment (lit "words") (PList []) in
      let? word_items := py_iter ws in
      let? words' := each_word word_items words in
      each_segment rest words'
  end.

(** Lines 97-108. *)
Definition extract_words (res : pyval) : result (list pyval) :=
  let? segs := py_get res (lit "segments") (PList []) in
  let? items := py_iter segs in
  each_segment items [].

Definition error_doc (msg : pystr) : pyval := PDict [(lit "error", PStr msg)].

(** Lines 66-119: the body of the [try]. *)
Definition aligned (E : env) (a : args) (transcript device : pystr)
  : proc unit :=
  mm <- call (ELoadAlignModel (language a) device)
             (load_align_model E (language a) device) ;;
  let align_model := fst mm in
  let align_metadata := snd mm in
  audio <- call (ELoadAudio (audio_path a)) (load_audio E (audio_path a)) ;;
  seg_end <- lift (int_truediv (Z.of_N (nd_len audio)) 16000) ;;
  let segments :=
    PList [PDict [(lit "text", PStr transcript);
                  (lit "start", PFloat (S754_zero false));
                  (lit "end", PFloat seg_end)]] in
  res <- call (EAlign segments align_model align_metadata audio device)
              (align E segments align_model align_metadata audio device) ;;
  words <- lift (extract_words res) ;;
  seconds <- lift (int_truediv (Z.of_N (nd_len audio)) 16000) ;;
  duration <- lift (py_round3 (PFloat seconds)) ;;
  let output :=
    PDict [(lit "success", PBool true);
           (lit "language", PStr (language a));
           (lit "duration", duration);
           (lit "word_count", PInt (Z.of_nat (List.length words)));
           (lit "words", PList words)] in
  print_json Stdout output.

(** Lines 18-126. *)
Definition main (E : env) : proc unit :=
  a <- parse_args (argv E) ;;
  when (negb (path_exists E (audio_path a)))
    (print_json Stderr
       (error_doc (lit "Audio file not found: " ++ audio_path a)) ;;
     sys_exit 1) ;;
  when (negb (path_exists E (text_path a)))
    (print_json Stderr
       (error_doc (lit "Text file not found: " ++ text_path a)) ;;
     sys_exit 1) ;;
  contents <- lift (read_text E (text_path a)) ;;
  let transcript := strip contents in
  when (match transcript with [] => true | _ => false end)
    (print_json Stderr (error_doc (lit "Transcript is empty")) ;;
     sys_exit 1) ;;
  try_except
    (match import_whisperx_torch E with
     | None => ret tt
     | Some e => raise e
     end)
    except_ImportError
    (fun e =>
       print_json Stderr
         (error_doc (lit "Missing dependency: " ++ exc_msg e
                     ++ lit ". Install with: pip install whisperx torch")) ;;
       sys_exit 1) ;;
  let device := resolve_device (cuda_is_available E) (device a) in
  let compute_type := adjust_compute_type device (compute_type a) in
  try_except
    (aligned E a transcript device)
    except_Exception
    (fun e =>
       print_json Stderr
         (PDict [(lit "error", PStr (exc_msg e));
                 (lit "type", PStr (exc_type e))]) ;;
       sys_exit 1).

End Align.

(* ===================================================================== *)
(** ** scripts/whisper_transcribe.py *)
(* ===================================================================== *)

Module Whisper.

(** The namespace argparse returns; [--audio] is required, the others
    default to ["base"], ["yi"], ["cpu"] and ["json"]. *)
Record args := {
  audio : pystr;
  model : pystr;
  language : pystr;
  device : pystr;
  output : pystr
}.

Definition with_defaults (audio : pystr) : args :=
  {| audio := audio; model := lit "base"; language := lit "yi";
     device := lit "cpu"; output := lit "json" |}.

Record env := {
  argv : parsed args;                          (* parser.parse_args() *)
  import_whisper : option exn;                 (* import whisper *)
  load_model : pystr -> pystr -> result handle;
  transcribe : handle -> pystr -> pystr -> result pyval
}.

(** Lines 47-52: the record built for one word of the library result. *)
Definition word_record (word_info : pyval) : result pyval :=
  let? w := py_get word_info (lit "word") (PStr []) in
  let? s := py_get word_info (lit "start") (PInt 0) in
  let? e := py_get word_info (lit "end") (PInt 0) in
  let? p := py_get word_info (lit "probability") PNone in
  Ok (PDict [(lit "word", w); (lit "start", s); (lit "end", e);
             (lit "probability", p)]).

(** Lines 46-52: the inner loop, appending to [words]. *)
Fixpoint each_word (items : list pyval) (words : list pyval)
  : result (list pyval) :=
  match items with
  | [] => Ok words
  | word_info :: rest =>
      let? word := word_record word_info in
      each_word rest (words ++ [word])
  end.

(** Lines 45-52: the outer loop. *)
Fixpoint each_segment (items : list pyval) (words : list pyval)
  : result (list pyval) :=
  match items with
  | [] => Ok words
  | segment :: rest =>
      let? ws := py_get segment (lit "words") (PList []) in
      let? word_items := py_iter ws in
      let? words' := each_word word_items words in
      each_segment rest words'
  end.

(** Lines 44-52. *)
Definition extract_words (res : pyval) : result (list pyval) :=
  let? segs := py_get res (lit "segments") (PList []) in
  let? items := py_iter segs in
  each_segment items [].

(** Lines 55-61. *)
Definition build_output (a : args) (res : pyval) (words : list pyval)
  : result pyval :=
  let? text := py_get res (lit "text") (PStr []) in
  let? lang := py_get res (lit "language") (PStr (language a)) in
  let? duration := py_get res (lit "duration") PNone in
  let? segments := py_get res (lit "segments") (PList []) in
  Ok (PDict [(lit "text", text); (lit "language", lang);
             (lit "duration", duration); (lit "segments", segments);
             (lit "words", PList words)]).

Definition error_doc (msg : pystr) : pyval := PDict [(lit "error", PStr msg)].

(** Lines 32-63: the body of the second [try]. *)
Definition transcribed (E : env) (a : args) : proc unit :=
  m <- call (ELoadModel (model a) (device a))
            (load_model E (model a) (device a)) ;;
  res <- call (ETranscribe m (audio a) (language a))
              (transcribe E m (audio a) (language a)) ;;
  words <- lift (extract_words res) ;;
  out <- lift (build_output a res words) ;;
  print_json Stdout out.

(** Lines 15-67. *)
Definition main (E : env) : proc unit :=
  a <- parse_args (argv E) ;;
  try_except
    (match import_whisper E with
     | None => ret tt
     | Some e => raise e
     end)
    except_ImportError
    (fun _ =>
       print_json Stdout
         (error_doc (lit "openai-whisper not installed. Run: pip install openai-whisper")) ;;
       sys_exit 1) ;;
  try_except
    (transcribed E a)
    except_Exception
    (fun e => print_json Stdout (error_doc (exc_msg e)) ;; sys_exit 1).

End Whisper.

(* ===================================================================== *)
(** ** What a caller observes *)
(* ===================================================================== *)

(** The JSON documents an invocation printed, in order, with their stream. *)
Fixpoint documents (tr : list event) : list (stream * pyval) :=
  match tr with
  | [] => []
  | EPrint s doc :: tr' => (s, doc) :: documents tr'
  | _ :: tr' => documents tr'
  end.

Definition is_call (ev : event) : bool :=
  match ev with
  | EPrint _ _ | EText _ => false
  | _ => true
  end.

(** The library calls an invocation reached, in order. *)
Definition library_calls (tr : list event) : list event := filter is_call tr.

Definition is_align_call (ev : event) : bool :=
  match ev with
  | EAlign _ _ _ _ _ => true
  | _ => false
  end.

(** The string arguments of a library call. *)
Definition string_arguments (ev : event) : list pystr :=
  match ev with
  | ELoadAlignModel l d => [l; d]
  | ELoadAudio p => [p]
  | EAlign _ _ _ _ d => [d]
  | ELoadModel n d => [n; d]
  | ETranscribe _ a l => [a; l]
  | EPrint _ _ | EText _ => []
  end.

Definition has_key (k : string) (v : pyval) : bool :=
  match v with
  | PDict d => match dict_lookup (lit k) d with Some _ => true | None => false end
  | _ => false
  end.

Definition field (k : string) (v : pyval) : option pyval :=
  match v with
  | PDict d => dict_lookup (lit k) d
  | _ => None
  end.

(** The error object: it has an [error] key and none of the keys of a
    success object. *)
Definition is_error_doc (v : pyval) : bool :=
  has_key "error" v && negb (has_key "success" v) && negb (has_key "words" v).

(** The success object of the alignment tool. *)
Definition align_success_doc (v : pyval) : bool :=
  match field "success" v with
  | Some (PBool true) =>
      has_key "language" v && has_key "duration" v && has_key "word_count" v
      && has_key "words" v && negb (has_key "error" v)
  | _ => false
  end.

(** The success object of the transcription tool. *)
Definition whisper_success_doc (v : pyval) : bool :=
  has_key "text" v && has_key "language" v && has_key "duration" v
  && has_key "segments" v && has_key "words" v && negb (has_key "error" v).

(** Exactly one payload, and the exit status that goes with it. *)
Definition one_payload (is_success : pyval -> bool) (p : process) : Prop :=
  exists s doc,
    documents (trace p) = [(s, doc)]
    /\ xorb (is_success doc) (is_error_doc doc) = true
    /\ (exit_code p = 0%Z <-> is_success doc = true)
    /\ (exit_code p = 1%Z <-> is_error_doc doc = true).

(** A map that stops at the first exception. *)
Fixpoint rmap {A B} (f : A -> result B) (l : list A) : result (list B) :=
  match l with
  | [] => Ok []
  | x :: l' =>
      let? y := f x in
      let? ys := rmap f l' in
      Ok (y :: ys)
  end.

(** The library result as the loops read it: the items of
    [res.get('segments', [])], and for a segment the items of
    [segment.get('words', [])]. *)
Definition segments_of (res : pyval) : result (list pyval) :=
  let? segs := py_get res (lit "segments") (PList []) in
  py_iter segs.

Definition words_of (segment : pyval) : result (list pyval) :=
  let? ws := py_get segment (lit "words") (PList []) in
  py_iter ws.

(** A well-formed library result: a dict whose segments are a list of
    dicts, each with a list of dicts as its words (both lists may be
    absent).  [nested_words] gives the word records segment by segment. *)
Definition as_dict (v : pyval) : option dict :=
  match v with
  | PDict d => Some d
  | _ => None
  end.

Definition as_list (v : pyval) : option (list pyval) :=
  match v with
  | PList l => Some l
  | _ => None
  end.

Fixpoint omap {A B} (f : A -> option B) (l : list A) : option (list B) :=
  match l with
  | [] => Some []
  | x :: l' =>
      match f x, omap f l' with
      | Some y, Some ys => Some (y :: ys)
      | _, _ => None
      end
  end.

Definition segment_words (segment : pyval) : option (list dict) :=
  match as_dict segment with
  | Some d =>
      match as_list (dict_get d (lit "words") (PList [])) with
      | Some l => omap as_dict l
      | None => None
      end
  | None => None
  end.

Definition nested_words (res : pyval) : option (list (list dict)) :=
  match as_dict res with
  | Some d =>
      match as_list (dict_get d (lit "segments") (PList [])) with
      | Some l => omap segment_words l
      | None => None
      end
  | None => None
  end.

(** A value [round] accepts. *)
Definition is_number (v : pyval) : bool :=
  match v with
  | PBool _ | PInt _ | PFloat _ => true
  | _ => false
  end.

(** A word record whose [start], [end] and [score], where present, are
    numbers. *)
Definition timed (d : dict) : bool :=
  is_number (dict_get d (lit "start") (PInt 0))
  && is_number (dict_get d (lit "end") (PInt 0))
  && is_number (dict_get d (lit "score") (PInt 0)).

(* ===================================================================== *)
(** ** Emitted records and the shape of a run *)
(* ===================================================================== *)

(** What the alignment tool emits for the word record [d] of the library:
    the word, the rounded start and end (0 where absent), and the rounded
    score as [confidence] exactly when [d] has a score. *)
Definition align_emits (d : dict) (w : pyval) : Prop :=
  field "word" w = Some (dict_get d (lit "word") (PStr []))
  /\ (exists s, field "start" w = Some s
                /\ py_round3 (dict_get d (lit "start") (PInt 0)) = Ok s)
  /\ (exists e, field "end" w = Some e
                /\ py_round3 (dict_get d (lit "end") (PInt 0)) = Ok e)
  /\ match dict_lookup (lit "score") d with
     | Some score =>
         exists c, field "confidence" w = Some c /\ py_round3 score = Ok c
     | None => field "confidence" w = None
     end.

(** What the transcription tool emits for the word record [d]: the four
    fields as they are, with [''], [0], [0] and [None] where absent. *)
Definition whisper_emits (d : dict) (w : pyval) : Prop :=
  field "word" w = Some (dict_get d (lit "word") (PStr []))
  /\ field "start" w = Some (dict_get d (lit "start") (PInt 0))
  /\ field "end" w = Some (dict_get d (lit "end") (PInt 0))
  /\ field "probability" w = Some (dict_get d (lit "probability") PNone).

(** [start <= end] on an emitted record. *)
Definition starts_before_end (w : pyval) : bool :=
  match field "start" w, field "end" w with
  | Some s, Some e => num_le s e
  | _, _ => false
  end.

Definition exited (tr : list event) (code : Z) : process :=
  {| trace := tr; exit_code := code; uncaught := None |}.

Definition crashed (e : exn) : process :=
  {| trace := [EText Stderr]; exit_code := 1; uncaught := Some e |}.

(** The segment list the tool builds (lines 80-84). *)
Definition one_segment (transcript : pystr) (seconds : float) : pyval :=
  PList [PDict [(lit "text", PStr transcript);
                (lit "start", PFloat (S754_zero false));
                (lit "end", PFloat seconds)]].

(** The success object the tool builds (lines 111-117). *)
Definition align_output (a : Align.args) (seconds : float) (words : list pyval)
  : pyval :=
  PDict [(lit "success", PBool true);
         (lit "language", PStr (Align.language a));
         (lit "duration", PFloat (float_round3 seconds));
         (lit "word_count", PInt (Z.of_nat (List.length words)));
         (lit "words", PList words)].

(** The invocation gets as far as the imports: the arguments parse, both
    files exist, the transcript can be read and is not blank. *)
Definition reaches_imports (E : Align.env) (a : Align.args) (contents : pystr)
  : Prop :=
  Align.argv E = Namespace a
  /\ Align.path_exists E (Align.audio_path a) = true
  /\ Align.path_exists E (Align.text_path a) = true
  /\ Align.read_text E (Align.text_path a) = Ok contents
  /\ strip contents <> [].

Definition align_device (E : Align.env) (a : Align.args) : pystr :=
  Align.resolve_device (Align.cuda_is_available E) (Align.device a).

Definition align_failure_doc (e : exn) : pyval :=
  PDict [(lit "error", PStr (exc_msg e)); (lit "type", PStr (exc_type e))].

(** Every way an invocation of the alignment tool can go. *)
Inductive align_run (E : Align.env) : process -> Prop :=
| ar_usage :
    Align.argv E = ParserError ->
    align_run E (exited [EText Stderr] 2)
| ar_help :
    Align.argv E = ParserHelp ->
    align_run E (exited [EText Stdout] 0)
| ar_no_audio a :
    Align.argv E = Namespace a ->
    Align.path_exists E (Align.audio_path a) = false ->
    align_run E
      (exited [EPrint Stderr
                 (Align.error_doc (lit "Audio file not found: "
                                   ++ Align.audio_path a))] 1)
| ar_no_text a :
    Align.argv E = Namespace a ->
    Align.path_exists E (Align.audio_path a) = true ->
    Align.path_exists E (Align.text_path a) = false ->
    align_run E
      (exited [EPrint Stderr
                 (Align.error_doc (lit "Text file not found: "
                                   ++ Align.text_path a))] 1)
| ar_unreadable a e :
    Align.argv E = Namespace a ->
    Align.path_exists E (Align.audio_path a) = true ->
    Align.path_exists E (Align.text_path a) = true ->
    Align.read_text E (Align.text_path a) = Err e ->
    align_run E (crashed e)
| ar_empty a contents :
    Align.argv E = Namespace a ->
    Align.path_exists E (Align.audio_path a) = true ->
    Align.path_exists E (Align.text_path a) = true ->
    Align.read_text E (Align.text_path a) = Ok contents ->
    strip contents = [] ->
    align_run E
      (exited [EPrint Stderr (Align.error_doc (lit "Transcript is empty"))] 1)
| ar_missing_dependency a contents e :
    reaches_imports E a contents ->
    Align.import_whisperx_torch E = Some e ->
    exc_is_import_error e = true ->
    align_run E
      (exited [EPrint Stderr
                 (Align.error_doc
                    (lit "Missing dependency: " ++ exc_msg e
                     ++ lit ". Install with: pip install whisperx torch"))] 1)
| ar_import_crash a contents e :
    reaches_imports E a contents ->
    Align.import_whisperx_torch E = Some e ->
    exc_is_import_error e = false ->
    align_run E (crashed e)
| ar_failed a contents tr e :
    reaches_imports E a contents ->
    Align.import_whisperx_torch E = None ->
    Align.aligned E a (strip contents) (align_device E a) = (tr, Raised e) ->
    align_run E (exited (tr ++ [EPrint Stderr (align_failure_doc e)]) 1)
| ar_succeeded a contents tr :
    reaches_imports E a contents ->
    Align.import_whisperx_torch E = None ->
    Align.aligned E a (strip contents) (align_device E a) = (tr, Normal tt) ->
    align_run E (exited tr 0).

(** The success object the tool builds (lines 55-61) from the dict [d]
    the library returned. *)
Definition whisper_output (a : Whisper.args) (d : dict) (words : list pyval)
  : pyval :=
  PDict [(lit "text", dict_get d (lit "text") (PStr []));
         (lit "language", dict_get d (lit "language") (PStr (Whisper.language a)));
         (lit "duration", dict_get d (lit "duration") PNone);
         (lit "segments", dict_get d (lit "segments") (PList []));
         (lit "words", PList words)].

Definition not_installed_doc : pyval :=
  Whisper.error_doc
    (lit "openai-whisper not installed. Run: pip install openai-whisper").

(** Every way an invocation of the transcription tool can go. *)
Inductive whisper_run (E : Whisper.env) : process -> Prop :=
| wr_usage :
    Whisper.argv E = ParserError ->
    whisper_run E (exited [EText Stderr] 2)
| wr_help :
    Whisper.argv E = ParserHelp ->
    whisper_run E (exited [EText Stdout] 0)
| wr_not_installed a e :
    Whisper.argv E = Namespace a ->
    Whisper.import_whisper E = Some e ->
    exc_is_import_error e = true ->
    whisper_run E (exited [EPrint Stdout not_installed_doc] 1)
| wr_import_crash a e :
    Whisper.argv E = Namespace a ->
    Whisper.import_whisper E = Some e ->
    exc_is_import_error e = false ->
    whisper_run E (crashed e)
| wr_failed a tr e :
    Whisper.argv E = Namespace a ->
    Whisper.import_whisper E = None ->
    Whisper.transcribed E a = (tr, Raised e) ->
    whisper_run E
      (exited (tr ++ [EPrint Stdout (Whisper.error_doc (exc_msg e))]) 1)
| wr_succeeded a tr :
    Whisper.argv E = Namespace a ->
    Whisper.import_whisper E = None ->
    Whisper.transcribed E a = (tr, Normal tt) ->
    whisper_run E (exited tr 0).

(* ===================================================================== *)
(** ** Changing one part of the surroundings *)
(* ===================================================================== *)

Definition set_argv (E : Align.env) (p : parsed Align.args) : Align.env :=
  {| Align.argv := p;
     Align.path_exists := Align.path_exists E;
     Align.read_text := Align.read_text E;
     Align.import_whisperx_torch := Align.import_whisperx_torch E;
     Align.cuda_is_available := Align.cuda_is_available E;
     Align.load_align_model := Align.load_align_model E;
     Align.load_audio := Align.load_audio E;
     Align.align := Align.align E |}.

Definition set_path_exists (E : Align.env) (f : pystr -> bool) : Align.env :=
  {| Align.argv := Align.argv E;
     Align.path_exists := f;
     Align.read_text := Align.read_text E;
     Align.import_whisperx_torch := Align.import_whisperx_torch E;
     Align.cuda_is_available := Align.cuda_is_available E;
     Align.load_align_model := Align.load_align_model E;
     Align.load_audio := Align.load_audio E;
     Align.align := Align.align E |}.

Definition set_read_text (E : Align.env) (f : pystr -> result pystr) : Align.env :=
  {| Align.argv := Align.argv E;
     Align.path_exists := Align.path_exists E;
     Align.read_text := f;
     Align.import_whisperx_torch := Align.import_whisperx_torch E;
     Align.cuda_is_available := Align.cuda_is_available E;
     Align.load_align_model := Align.load_align_model E;
     Align.load_audio := Align.load_audio E;
     Align.align := Align.align E |}.

Definition set_load_align_model (E : Align.env)
    (f : pystr -> pystr -> result (handle * handle)) : Align.env :=
  {| Align.argv := Align.argv E;
     Align.path_exists := Align.path_exists E;
     Align.read_text := Align.read_text E;
     Align.import_whisperx_torch := Align.import_whisperx_torch E;
     Align.cuda_is_available := Align.cuda_is_available E;
     Align.load_align_model := f;
     Align.load_audio := Align.load_audio E;
     Align.align := Align.align E |}.

Definition set_compute_type (a : Align.args) (c : pystr) : Align.args :=
  {| Align.audio_path := Align.audio_path a;
     Align.text_path := Align.text_path a;
     Align.language := Align.language a;
     Align.model := Align.model a;
     Align.device := Align.device a;
     Align.compute_type := c |}.

(* ===================================================================== *)
(** ** Concrete invocations *)
(* ===================================================================== *)

Module Samples.

(** 0.12345, 0.123 = round(0.12345, 3), 0.5 and 2.0 as floats. *)
Definition f0_12345 : float := S754_finite false 8895509983982204 (-56).
Definition f0_123 : float := S754_finite false 8863084066665136 (-56).
Definition f0_5 : float := S754_finite false 4503599627370496 (-53).
Definition f2_0 : float := S754_finite false 4503599627370496 (-51).

(** Two words in one segment; the second has no timing and no score, as
    WhisperX leaves a word it could not align. *)
Definition aligned_result : pyval :=
  PDict [(lit "segments",
          PList [PDict [(lit "words",
                         PList [PDict [(lit "word", PStr (lit "hello"));
                                       (lit "start", PFloat f0_12345);
                                       (lit "end", PFloat f0_5);
                                       (lit "score", PFloat f0_5)];
                                PDict [(lit "word", PStr (lit "world"))]])]])].

Definition align_ok : Align.env :=
  {| Align.argv := Namespace (Align.with_defaults (lit "a.wav") (lit "t.txt"));
     Align.path_exists := fun _ => true;
     Align.read_text := fun _ => Ok (lit " hello world" ++ [10%N])%list;
     Align.import_whisperx_torch := None;
     Align.cuda_is_available := false;
     Align.load_align_model := fun _ _ => Ok (Handle 1, Handle 2);
     Align.load_audio := fun _ => Ok {| nd_len := 32000 |};
     Align.align := fun _ _ _ _ _ => Ok aligned_result |}.

(** The transcript file is not valid UTF-8. *)
Definition undecodable : exn :=
  {| exc_type := lit "UnicodeDecodeError";
     exc_msg := lit "'utf-8' codec can't decode byte 0xe0 in position 0: invalid continuation byte";
     exc_is_import_error := false |}.

(** WhisperX has no alignment model for the language. *)
Definition no_align_model : exn :=
  {| exc_type := lit "ValueError";
     exc_msg := lit "No default align-model for language: yi";
     exc_is_import_error := false |}.

Definition align_no_model : Align.env :=
  set_load_align_model align_ok (fun _ _ => Err no_align_model).

Definition no_module (name : string) : exn :=
  {| exc_type := lit "ModuleNotFoundError";
     exc_msg := lit ("No module named '" ++ name ++ "'");
     exc_is_import_error := true |}.

(** One segment, one word whose start is after its end and has more than
    three decimals, and no probability. *)
Definition transcribed_result : pyval :=
  PDict [(lit "text", PStr (lit " hello"));
         (lit "segments",
          PList [PDict [(lit "words",
                         PList [PDict [(lit "word", PStr (lit " hello"));
                                       (lit "start", PFloat f2_0);
                                       (lit "end", PFloat f0_12345)]])]])].

Definition whisper_ok : Whisper.env :=
  {| Whisper.argv := Namespace (Whisper.with_defaults (lit "a.wav"));
     Whisper.import_whisper := None;
     Whisper.load_model := fun _ _ => Ok (Handle 1);
     Whisper.transcribe := fun _ _ _ => Ok transcribed_result |}.

Definition whisper_not_installed : Whisper.env :=
  {| Whisper.argv := Namespace (Whisper.with_defaults (lit "a.wav"));
     Whisper.import_whisper := Some (no_module "whisper");
     Whisper.load_model := fun _ _ => Ok (Handle 1);
     Whisper.transcribe := fun _ _ _ => Ok transcribed_result |}.

Definition whisper_bad_usage : Whisper.env :=
  {| Whisper.argv := ParserError;
     Whisper.import_whisper := None;
     Whisper.load_model := fun _ _ => Ok (Handle 1);
     Whisper.transcribe := fun _ _ _ => Ok transcribed_result |}.

End Samples.

(* ===================================================================== *)
(** ** Calls, options and further invocations *)
(* ===================================================================== *)


(** The device a library call is given, when it takes one. *)
Definition device_argument (ev : event) : option pystr :=
  match ev with
  | ELoadAlignModel _ d => Some d
  | EAlign _ _ _ _ d => Some d
  | ELoadModel _ d => Some d
  | _ => None
  end.

Definition set_model (a : Align.args) (m : pystr) : Align.args :=
  {| Align.audio_path := Align.audio_path a;
     Align.text_path := Align.text_path a;
     Align.language := Align.language a;
     Align.model := m;
     Align.device := Align.device a;
     Align.compute_type := Align.compute_type a |}.

Definition set_cuda (E : Align.env) (b : bool) : Align.env :=
  {| Align.argv := Align.argv E;
     Align.path_exists := Align.path_exists E;
     Align.read_text := Align.read_text E;
     Align.import_whisperx_torch := Align.import_whisperx_torch E;
     Align.cuda_is_available := b;
     Align.load_align_model := Align.load_align_model E;
     Align.load_audio := Align.load_audio E;
     Align.align := Align.align E |}.

Definition set_imports (E : Align.env) (i : option exn) : Align.env :=
  {| Align.argv := Align.argv E;
     Align.path_exists := Align.path_exists E;
     Align.read_text := Align.read_text E;
     Align.import_whisperx_torch := i;
     Align.cuda_is_available := Align.cuda_is_available E;
     Align.load_align_model := Align.load_align_model E;
     Align.load_audio := Align.load_audio E;
     Align.align := Align.align E |}.

Definition set_align (E : Align.env)
    (f : pyval -> handle -> handle -> ndarray -> pystr -> result pyval)
  : Align.env :=
  {| Align.argv := Align.argv E;
     Align.path_exists := Align.path_exists E;
     Align.read_text := Align.read_text E;
     Align.import_whisperx_torch := Align.import_whisperx_torch E;
     Align.cuda_is_available := Align.cuda_is_available E;
     Align.load_align_model := Align.load_align_model E;
     Align.load_audio := Align.load_audio E;
     Align.align := f |}.

Definition set_output (a : Whisper.args) (o : pystr) : Whisper.args :=
  {| Whisper.audio := Whisper.audio a;
     Whisper.model := Whisper.model a;
     Whisper.language := Whisper.language a;
     Whisper.device := Whisper.device a;
     Whisper.output := o |}.

Definition whisper_set_argv (E : Whisper.env) (p : parsed Whisper.args)
  : Whisper.env :=
  {| Whisper.argv := p;
     Whisper.import_whisper := Whisper.import_whisper E;
     Whisper.load_model := Whisper.load_model E;
     Whisper.transcribe := Whisper.transcribe E |}.

Module Cases.

(** The audio file is there, the transcript is not. *)
Definition align_no_text : Align.env :=
  set_path_exists Samples.align_ok (fun p => pystr_eqb p (lit "a.wav")).

(** A shared library that torch needs cannot be loaded: the import raises,
    and what it raises is no [ImportError]. *)
Definition broken_library : exn :=
  {| exc_type := lit "OSError";
     exc_msg := lit "libcudart.so.12: cannot open shared object file";
     exc_is_import_error := false |}.

Definition align_broken_import : Align.env :=
  set_imports Samples.align_ok (Some broken_library).

Definition align_missing_import : Align.env :=
  set_imports Samples.align_ok (Some (Samples.no_module "whisperx")).

Definition whisper_broken_import : Whisper.env :=
  {| Whisper.argv := Namespace (Whisper.with_defaults (lit "a.wav"));
     Whisper.import_whisper := Some broken_library;
     Whisper.load_model := fun _ _ => Ok (Handle 1);
     Whisper.transcribe := fun _ _ _ => Ok Samples.transcribed_result |}.

(** The audio file cannot be decoded. *)
Definition no_decoder : exn :=
  {| exc_type := lit "RuntimeError";
     exc_msg := lit "Failed to load audio";
     exc_is_import_error := false |}.

Definition whisper_no_decoder : Whisper.env :=
  {| Whisper.argv := Namespace (Whisper.with_defaults (lit "a.wav"));
     Whisper.import_whisper := None;
     Whisper.load_model := fun _ _ => Ok (Handle 1);
     Whisper.transcribe := fun _ _ _ => Err no_decoder |}.

(** The second word could not be aligned and carries [None] as its
    start. *)
Definition untimed_result : pyval :=
  PDict [(lit "segments",
          PList [PDict [(lit "words",
                         PList [PDict [(lit "word", PStr (lit "hello"));
                                       (lit "start", PFloat Samples.f0_12345);
                                       (lit "end", PFloat Samples.f0_5)];
                                PDict [(lit "word", PStr (lit "world"));
                                       (lit "start", PNone);
                                       (lit "end", PFloat Samples.f2_0)]])]])].

Definition align_untimed : Align.env :=
  set_align Samples.align_ok (fun _ _ _ _ _ => Ok untimed_result).




End Cases.

(* ===================================================================== *)
(** ** Strings, keys and the stopping map *)
(* ===================================================================== *)

Lemma pystr_eqb_eq (a b : pystr) : pystr_eqb a b = true <-> a = b.
Proof.
  revert b; induction a as [|x a IH]; intros [|y b]; simpl;
    try (split; [discriminate | discriminate]); try tauto.
  rewrite andb_true_iff, N.eqb_eq, IH.
  split; [intros [-> ->]; reflexivity | intros H; inversion H; auto].
Qed.

Lemma pystr_eqb_refl (a : pystr) : pystr_eqb a a = true.
Proof. apply pystr_eqb_eq; reflexivity. Qed.

Lemma pystr_eqb_neq (a b : pystr) : pystr_eqb a b = false <-> a <> b.
Proof.
  rewrite <- pystr_eqb_eq. destruct (pystr_eqb a b); split; congruence.
Qed.

Lemma rmap_Forall2 {A B} (f : A -> result B) (l : list A) (out : list B) :
  rmap f l = Ok out <-> Forall2 (fun x y => f x = Ok y) l out.
Proof.
  revert out; induction l as [|x l IH]; intros out; simpl.
  - split.
    + intros H; inversion H; constructor.
    + intros H; inversion H; reflexivity.
  - destruct (f x) as [y|e] eqn:Hx; simpl.
    + destruct (rmap f l) as [ys|e] eqn:Hl; simpl.
      * split.
        -- intros H; inversion H; subst. constructor; [assumption|].
           apply IH; reflexivity.
        -- intros H; inversion H; subst.
           assert (y0 = y) by congruence; subst.
           match goal with F : Forall2 _ l _ |- _ => apply IH in F; congruence end.
      * split; [discriminate|].
        intros H; inversion H; subst.
        match goal with F : Forall2 _ l _ |- _ => apply IH in F; discriminate end.
    + split; [discriminate|].
      intros H; inversion H; congruence.
Qed.

Lemma omap_Forall2 {A B} (f : A -> option B) (l : list A) (out : list B) :
  omap f l = Some out -> Forall2 (fun x y => f x = Some y) l out.
Proof.
  revert out; induction l as [|x l IH]; intros out; simpl.
  - intros H; inversion H; constructor.
  - destruct (f x) as [y|] eqn:Hx; [|discriminate].
    destruct (omap f l) as [ys|]; [|discriminate].
    intros H; inversion H; subst. constructor; auto.
Qed.

Lemma Forall2_map_r {A B C} (R : A -> C -> Prop) (g : B -> C) l (l' : list B) :
  Forall2 (fun x y => R x (g y)) l l' -> Forall2 R l (map g l').
Proof. induction 1; simpl; constructor; auto. Qed.

Lemma Forall2_map_l {A B C} (R : B -> C -> Prop) (g : A -> B) (l : list A) l' :
  Forall2 (fun x y => R (g x) y) l l' -> Forall2 R (map g l) l'.
Proof. induction 1; simpl; constructor; auto. Qed.

Lemma Forall2_total {A B} (R : A -> B -> Prop) (l : list A) :
  (forall x, In x l -> exists y, R x y) -> exists out, Forall2 R l out.
Proof.
  induction l as [|x l IH]; intros H.
  - exists []; constructor.
  - destruct (H x (or_introl eq_refl)) as [y Hy].
    destruct IH as [ys Hys]; [intros z Hz; apply H; right; exact Hz|].
    exists (y :: ys); constructor; assumption.
Qed.

(* ===================================================================== *)
(** ** The two loops of the flattening step *)
(* ===================================================================== *)

(** Both scripts flatten with the same pair of loops around their own
    word record; the loops are characterised once, from their equations. *)
Section Loops.

Variable record : pyval -> result pyval.
Variables each_word each_segment : list pyval -> list pyval -> result (list pyval).

Hypothesis each_word_eq : forall items words,
  each_word items words =
  match items with
  | [] => Ok words
  | x :: rest => let? w := record x in each_word rest (words ++ [w])
  end.

Hypothesis each_segment_eq : forall items words,
  each_segment items words =
  match items with
  | [] => Ok words
  | segment :: rest =>
      let? ws := py_get segment (lit "words") (PList []) in
      let? word_items := py_iter ws in
      let? words' := each_word word_items words in
      each_segment rest words'
  end.

(** The inner loop succeeds exactly when every item gives a record, and
    then appends the records in order. *)
Lemma each_word_ok items : forall words out,
  each_word items words = Ok out <->
  exists recs, Forall2 (fun x y => record x = Ok y) items recs
               /\ out = words ++ recs.
Proof.
  induction items as [|x rest IH]; intros words out; rewrite each_word_eq.
  - split.
    + intros H; inversion H; subst. exists []; split; [constructor|].
      now rewrite app_nil_r.
    + intros (recs & F & ->). inversion F; subst. now rewrite app_nil_r.
  - destruct (record x) as [w|e] eqn:Hx; simpl.
    + rewrite IH. split.
      * intros (recs & F & ->). exists (w :: recs). split.
        -- constructor; assumption.
        -- now rewrite <- app_assoc.
      * intros (recs & F & ->). inversion F; subst.
        assert (y = w) by congruence; subst.
        eexists; split; [eassumption|]. now rewrite <- app_assoc.
    + split; [discriminate|].
      intros (recs & F & _). inversion F; congruence.
Qed.

(** The outer loop succeeds exactly when every segment has a word list
    and every word of the concatenation gives a record. *)
Lemma each_segment_ok segs : forall words out,
  each_segment segs words = Ok out <->
  exists wss recs,
    Forall2 (fun s ws => words_of s = Ok ws) segs wss
    /\ Forall2 (fun x y => record x = Ok y) (List.concat wss) recs
    /\ out = words ++ recs.
Proof.
  induction segs as [|seg rest IH]; intros words out; rewrite each_segment_eq.
  - split.
    + intros H; inversion H; subst. exists [], []. repeat split; try constructor.
      now rewrite app_nil_r.
    + intros (wss & recs & F & G & ->). inversion F; subst.
      simpl in G. inversion G; subst. now rewrite app_nil_r.
  - unfold words_of in *.
    destruct (py_get seg (lit "words") (PList [])) as [ws|e] eqn:Hg; simpl.
    2:{ split; [discriminate|]. intros (wss & recs & F & _).
        inversion F; subst. rewrite Hg in *. simpl in *. discriminate. }
    destruct (py_iter ws) as [word_items|e] eqn:Hi; simpl.
    2:{ split; [discriminate|]. intros (wss & recs & F & _).
        inversion F; subst. rewrite Hg in *; simpl in *. congruence. }
    destruct (each_word word_items words) as [words'|e] eqn:Hw; simpl.
    + apply each_word_ok in Hw. destruct Hw as (recs1 & F1 & ->).
      rewrite IH. split.
      * intros (wss & recs & F & G & ->).
        exists (word_items :: wss), (recs1 ++ recs). repeat split.
        -- constructor; [rewrite Hg; simpl; exact Hi | exact F].
        -- simpl. apply Forall2_app; assumption.
        -- now rewrite app_assoc.
      * intros (wss & recs & F & G & ->). inversion F; subst.
        rewrite Hg in *; simpl in *.
        assert (y = word_items) by congruence; subst.
        apply Forall2_app_inv_l in G. destruct G as (r1 & r2 & G1 & G2 & ->).
        assert (r1 = recs1).
        { apply rmap_Forall2 in G1. apply rmap_Forall2 in F1. congruence. }
        subst. exists l', r2. repeat split; try assumption.
        now rewrite app_assoc.
    + split; [discriminate|].
      intros (wss & recs & F & G & _). inversion F; subst.
      rewrite Hg in *; simpl in *.
      assert (y = word_items) by congruence; subst.
      apply Forall2_app_inv_l in G. destruct G as (r1 & r2 & G1 & _ & _).
      assert (each_word word_items words = Ok (words ++ r1)) as K.
      { apply each_word_ok. eauto. }
      congruence.
Qed.

(** The whole step: the flat list is the records of the concatenation,
    in segment order, of each segment's words. *)
Lemma flatten_ok res out :
  (let? segs := py_get res (lit "segments") (PList []) in
   let? items := py_iter segs in
   each_segment items []) = Ok out <->
  exists segs wss,
    segments_of res = Ok segs
    /\ Forall2 (fun s ws => words_of s = Ok ws) segs wss
    /\ Forall2 (fun x y => record x = Ok y) (List.concat wss) out.
Proof.
  unfold segments_of.
  destruct (py_get res (lit "segments") (PList [])) as [sv|e]; simpl.
  2:{ split; [discriminate | intros (? & ? & ? & _); discriminate]. }
  destruct (py_iter sv) as [segs|e]; simpl.
  2:{ split; [discriminate | intros (? & ? & ? & _); discriminate]. }
  rewrite each_segment_ok. split.
  - intros (wss & recs & F & G & ->). exists segs, wss. auto.
  - intros (segs' & wss & H & F & G). inversion H; subst.
    exists wss, out. auto.
Qed.

End Loops.

(** A well-formed result read as the loops read it. *)
Lemma segment_words_view (segment : pyval) (ds : list dict) :
  segment_words segment = Some ds -> words_of segment = Ok (map PDict ds).
Proof.
  unfold segment_words, words_of.
  destruct segment; simpl; try discriminate.
  destruct (dict_get d (lit "words") (PList [])); simpl; try discriminate.
  intros H. apply omap_Forall2 in H. f_equal.
  induction H as [|x y l l' Hxy _ IH]; simpl; [reflexivity|].
  destruct x; simpl in Hxy; try discriminate. congruence.
Qed.

Lemma nested_words_view (res : pyval) (wss : list (list dict)) :
  nested_words res = Some wss ->
  exists segs,
    segments_of res = Ok segs
    /\ Forall2 (fun s ws => words_of s = Ok ws) segs (map (map PDict) wss).
Proof.
  unfold nested_words, segments_of.
  destruct res; simpl; try discriminate.
  destruct (dict_get d (lit "segments") (PList [])); simpl; try discriminate.
  intros H. apply omap_Forall2 in H. exists l. split; [reflexivity|].
  apply Forall2_map_r.
  induction H; constructor; auto using segment_words_view.
Qed.

Lemma align_extract_words_ok (res : pyval) (out : list pyval) :
  Align.extract_words res = Ok out <->
  exists segs wss,
    segments_of res = Ok segs
    /\ Forall2 (fun s ws => words_of s = Ok ws) segs wss
    /\ Forall2 (fun x y => Align.word_record x = Ok y) (List.concat wss) out.
Proof.
  unfold Align.extract_words.
  apply flatten_ok with (each_word := Align.each_word);
    intros [|x rest] words; reflexivity.
Qed.

Lemma whisper_extract_words_ok (res : pyval) (out : list pyval) :
  Whisper.extract_words res = Ok out <->
  exists segs wss,
    segments_of res = Ok segs
    /\ Forall2 (fun s ws => words_of s = Ok ws) segs wss
    /\ Forall2 (fun x y => Whisper.word_record x = Ok y) (List.concat wss) out.
Proof.
  unfold Whisper.extract_words.
  apply flatten_ok with (each_word := Whisper.each_word);
    intros [|x rest] words; reflexivity.
Qed.

(* ===================================================================== *)
(** ** Word records *)
(* ===================================================================== *)

Lemma py_round3_number (v : pyval) :
  is_number v = true -> exists r, py_round3 v = Ok r.
Proof. destruct v; simpl; try discriminate; eauto. Qed.

(** A rounded float is the float nearest to a whole number of
    thousandths, or a zero, an infinity or NaN. *)
Lemma float_round3_thousandth (x : float) :
  (exists n : Z, float_round3 x = nearest_quotient n 1000)
  \/ (exists s, float_round3 x = S754_zero s)
  \/ float_round3 x = x.
Proof.
  destruct x as [s|s| |s m e]; simpl; auto.
  destruct (thousandths m e) as [|n|n]; eauto.
  left. exists (if s then Zneg n else Zpos n). destruct s; reflexivity.
Qed.

Lemma align_word_record_dict (d : dict) :
  Align.word_record (PDict d) =
  let? s := py_round3 (dict_get d (lit "start") (PInt 0)) in
  let? e := py_round3 (dict_get d (lit "end") (PInt 0)) in
  match dict_lookup (lit "score") d with
  | Some score =>
      let? c := py_round3 score in
      Ok (PDict [(lit "word", dict_get d (lit "word") (PStr []));
                 (lit "start", s); (lit "end", e); (lit "confidence", c)])
  | None =>
      Ok (PDict [(lit "word", dict_get d (lit "word") (PStr []));
                 (lit "start", s); (lit "end", e)])
  end.
Proof.
  unfold Align.word_record; simpl.
  destruct (py_round3 (dict_get d (lit "start") (PInt 0))); simpl; [|reflexivity].
  destruct (py_round3 (dict_get d (lit "end") (PInt 0))); simpl; [|reflexivity].
  destruct (dict_lookup (lit "score") d); [|reflexivity].
  destruct (py_round3 p); reflexivity.
Qed.

Lemma align_word_record_emits (d : dict) (w : pyval) :
  Align.word_record (PDict d) = Ok w -> align_emits d w.
Proof.
  rewrite align_word_record_dict. unfold align_emits.
  destruct (py_round3 (dict_get d (lit "start") (PInt 0))) as [s|]; simpl;
    [|discriminate].
  destruct (py_round3 (dict_get d (lit "end") (PInt 0))) as [e|]; simpl;
    [|discriminate].
  destruct (dict_lookup (lit "score") d) as [score|].
  - destruct (py_round3 score) as [c|] eqn:Hc; simpl; [|discriminate].
    intros H; inversion H; subst.
    repeat split; try reflexivity; eexists; split; reflexivity.
  - intros H; inversion H; subst.
    repeat split; try reflexivity; eexists; split; reflexivity.
Qed.

Lemma align_word_record_total (d : dict) :
  timed d = true -> exists w, Align.word_record (PDict d) = Ok w.
Proof.
  unfold timed. rewrite !andb_true_iff. intros [[Hs He] Hc].
  rewrite align_word_record_dict.
  destruct (py_round3_number _ Hs) as [s ->].
  destruct (py_round3_number _ He) as [e ->]. simpl.
  unfold dict_get in Hc.
  destruct (dict_lookup (lit "score") d) as [score|]; [|eauto].
  destruct (py_round3_number _ Hc) as [c ->]. simpl. eauto.
Qed.

Lemma whisper_word_record_dict (d : dict) :
  Whisper.word_record (PDict d) =
  Ok (PDict [(lit "word", dict_get d (lit "word") (PStr []));
             (lit "start", dict_get d (lit "start") (PInt 0));
             (lit "end", dict_get d (lit "end") (PInt 0));
             (lit "probability", dict_get d (lit "probability") PNone)]).
Proof. reflexivity. Qed.

Lemma whisper_word_record_emits (d : dict) (w : pyval) :
  Whisper.word_record (PDict d) = Ok w -> whisper_emits d w.
Proof.
  rewrite whisper_word_record_dict. intros H; inversion H; subst.
  repeat split.
Qed.

(** A record is only ever built from a dict. *)
Lemma align_word_record_inv (x w : pyval) :
  Align.word_record x = Ok w -> exists d, x = PDict d.
Proof. destruct x; try discriminate; eauto. Qed.

Lemma whisper_word_record_inv (x w : pyval) :
  Whisper.word_record x = Ok w -> exists d, x = PDict d.
Proof. destruct x; try discriminate; eauto. Qed.

(** Flattening a well-formed result. *)
Lemma align_flatten_nested (res : pyval) (wss : list (list dict)) :
  nested_words res = Some wss ->
  forallb timed (List.concat wss) = true ->
  exists words,
    Align.extract_words res = Ok words
    /\ Forall2 align_emits (List.concat wss) words.
Proof.
  intros Hn Ht. destruct (nested_words_view _ Hn) as (segs & Hs & Hw).
  destruct (@Forall2_total dict pyval
              (fun d w => Align.word_record (PDict d) = Ok w) (List.concat wss))
    as [words Hwords].
  { intros d Hd. apply align_word_record_total.
    rewrite forallb_forall in Ht. auto. }
  exists words. split.
  - apply align_extract_words_ok. exists segs, (map (map PDict) wss).
    repeat split; try assumption.
    rewrite <- concat_map. apply Forall2_map_l. exact Hwords.
  - eapply Forall2_impl; [|exact Hwords].
    intros d w. apply align_word_record_emits.
Qed.

Lemma whisper_flatten_nested (res : pyval) (wss : list (list dict)) :
  nested_words res = Some wss ->
  exists words,
    Whisper.extract_words res = Ok words
    /\ Forall2 whisper_emits (List.concat wss) words.
Proof.
  intros Hn. destruct (nested_words_view _ Hn) as (segs & Hs & Hw).
  destruct (@Forall2_total dict pyval
              (fun d w => Whisper.word_record (PDict d) = Ok w) (List.concat wss))
    as [words Hwords].
  { intros d _. rewrite whisper_word_record_dict. eauto. }
  exists words. split.
  - apply whisper_extract_words_ok. exists segs, (map (map PDict) wss).
    repeat split; try assumption.
    rewrite <- concat_map. apply Forall2_map_l. exact Hwords.
  - eapply Forall2_impl; [|exact Hwords].
    intros d w. apply whisper_word_record_emits.
Qed.

(* ===================================================================== *)
(** ** The runs of the alignment tool *)
(* ===================================================================== *)

#[local] Arguments int_truediv : simpl never.
#[local] Arguments float_round3 : simpl never.
#[local] Arguments Align.extract_words : simpl never.
#[local] Arguments Whisper.extract_words : simpl never.
#[local] Arguments Whisper.build_output : simpl never.
#[local] Arguments Align.resolve_device : simpl never.
#[local] Arguments lit : simpl never.
#[local] Arguments strip : simpl never.

(** The body of the [try] either raises, having printed nothing, or runs
    its three library calls once each, in order, and prints the success
    object.  It never exits by itself. *)
Lemma aligned_cases (E : Align.env) (a : Align.args) (t dev : pystr) :
  (exists tr e,
      Align.aligned E a t dev = (tr, Raised e)
      /\ documents tr = [])
  \/ (exists mm audio q res words,
        Align.load_align_model E (Align.language a) dev = Ok mm
        /\ Align.load_audio E (Align.audio_path a) = Ok audio
        /\ int_truediv (Z.of_N (nd_len audio)) 16000 = Ok q
        /\ Align.align E (one_segment t q) (fst mm) (snd mm) audio dev = Ok res
        /\ Align.extract_words res = Ok words
        /\ Align.aligned E a t dev =
           ([ELoadAlignModel (Align.language a) dev;
             ELoadAudio (Align.audio_path a);
             EAlign (one_segment t q) (fst mm) (snd mm) audio dev;
             EPrint Stdout (align_output a q words)], Normal tt)).
Proof.
  unfold Align.aligned, one_segment, align_output.
  destruct (Align.load_align_model E (Align.language a) dev) as [mm|e] eqn:Hm.
  2:{ left. do 2 eexists. split; reflexivity. }
  cbn.
  destruct (Align.load_audio E (Align.audio_path a)) as [audio|e] eqn:Ha.
  2:{ left. do 2 eexists. split; reflexivity. }
  cbn.
  destruct (int_truediv (Z.of_N (nd_len audio)) 16000) as [q|e] eqn:Hq.
  2:{ left. do 2 eexists. split; reflexivity. }
  cbn.
  match goal with |- context [Align.align E ?s ?m ?md ?au ?d] =>
    destruct (Align.align E s m md au d) as [res|e] eqn:Hr end.
  2:{ left. do 2 eexists. split; reflexivity. }
  cbn.
  destruct (Align.extract_words res) as [words|e] eqn:Hw.
  2:{ left. do 2 eexists. split; reflexivity. }
  right. exists mm, audio, q, res, words. cbn. auto 10.
Qed.

(** The three failures the [try] is there for. *)
Lemma model_load_failure (E : Align.env) a t dev e :
  Align.load_align_model E (Align.language a) dev = Err e ->
  Align.aligned E a t dev = ([ELoadAlignModel (Align.language a) dev], Raised e).
Proof. intros H. unfold Align.aligned. rewrite H. reflexivity. Qed.

Lemma audio_load_failure (E : Align.env) a t dev mm e :
  Align.load_align_model E (Align.language a) dev = Ok mm ->
  Align.load_audio E (Align.audio_path a) = Err e ->
  Align.aligned E a t dev =
  ([ELoadAlignModel (Align.language a) dev; ELoadAudio (Align.audio_path a)],
   Raised e).
Proof. intros H1 H2. unfold Align.aligned. rewrite H1. cbn. rewrite H2. reflexivity. Qed.

Lemma alignment_failure (E : Align.env) a t dev mm audio q e :
  Align.load_align_model E (Align.language a) dev = Ok mm ->
  Align.load_audio E (Align.audio_path a) = Ok audio ->
  int_truediv (Z.of_N (nd_len audio)) 16000 = Ok q ->
  Align.align E (one_segment t q) (fst mm) (snd mm) audio dev = Err e ->
  Align.aligned E a t dev =
  ([ELoadAlignModel (Align.language a) dev; ELoadAudio (Align.audio_path a);
    EAlign (one_segment t q) (fst mm) (snd mm) audio dev], Raised e).
Proof.
  intros H1 H2 H3 H4. unfold Align.aligned, one_segment in *.
  rewrite H1. cbn. rewrite H2. cbn. rewrite H3. cbn. rewrite H4. reflexivity.
Qed.

Lemma align_run_main (E : Align.env) : align_run E (run (Align.main E)).
Proof.
  unfold Align.main.
  destruct (Align.argv E) as [a| |] eqn:Hargv; cbn.
  2:{ now apply ar_usage. }
  2:{ now apply ar_help. }
  destruct (Align.path_exists E (Align.audio_path a)) eqn:Haudio; cbn.
  2:{ now apply ar_no_audio. }
  destruct (Align.path_exists E (Align.text_path a)) eqn:Htext; cbn.
  2:{ now apply ar_no_text. }
  destruct (Align.read_text E (Align.text_path a)) as [contents|e] eqn:Hread; cbn.
  2:{ now apply ar_unreadable with (a := a). }
  destruct (strip contents) as [|c t] eqn:Hstrip; cbn.
  { now apply ar_empty with (a := a) (contents := contents). }
  assert (reaches_imports E a contents) as Hreach.
  { unfold reaches_imports. rewrite Hstrip. repeat split; auto. discriminate. }
  destruct (Align.import_whisperx_torch E) as [e|] eqn:Himp; cbn.
  - unfold except_ImportError.
    destruct (exc_is_import_error e) eqn:Hie; cbn.
    + now apply ar_missing_dependency with (a := a) (contents := contents).
    + now apply ar_import_crash with (a := a) (contents := contents).
  - fold (align_device E a).
    destruct (aligned_cases E a (c :: t) (align_device E a))
      as [(tr & e & Hb & _) | (mm & audio & q & res & words & _ & _ & _ & _ & _ & Hb)];
      rewrite Hb; cbn.
    + apply ar_failed with (a := a) (contents := contents); auto.
      now rewrite Hstrip.
    + apply ar_succeeded with (a := a) (contents := contents); auto.
      now rewrite Hstrip.
Qed.

(* ===================================================================== *)
(** ** The runs of the transcription tool *)
(* ===================================================================== *)

Lemma whisper_extract_words_dict (res : pyval) (words : list pyval) :
  Whisper.extract_words res = Ok words -> exists d, res = PDict d.
Proof. destruct res; try discriminate; eauto. Qed.

(** The body of the second [try] either raises, having printed nothing, or
    runs its two library calls once each and prints the success object. *)
Lemma transcribed_cases (E : Whisper.env) (a : Whisper.args) :
  (exists tr e,
      Whisper.transcribed E a = (tr, Raised e)
      /\ documents tr = [])
  \/ (exists m d words,
        Whisper.load_model E (Whisper.model a) (Whisper.device a) = Ok m
        /\ Whisper.transcribe E m (Whisper.audio a) (Whisper.language a)
           = Ok (PDict d)
        /\ Whisper.extract_words (PDict d) = Ok words
        /\ Whisper.transcribed E a =
           ([ELoadModel (Whisper.model a) (Whisper.device a);
             ETranscribe m (Whisper.audio a) (Whisper.language a);
             EPrint Stdout (whisper_output a d words)], Normal tt)).
Proof.
  unfold Whisper.transcribed, whisper_output.
  destruct (Whisper.load_model E (Whisper.model a) (Whisper.device a))
    as [m|e] eqn:Hm.
  2:{ left. do 2 eexists. split; reflexivity. }
  cbn.
  destruct (Whisper.transcribe E m (Whisper.audio a) (Whisper.language a))
    as [res|e] eqn:Hr.
  2:{ left. do 2 eexists. split; reflexivity. }
  cbn.
  destruct (Whisper.extract_words res) as [words|e] eqn:Hw.
  2:{ left. do 2 eexists. split; reflexivity. }
  destruct (whisper_extract_words_dict _ Hw) as [d ->].
  right. exists m, d, words. cbn. auto.
Qed.

Lemma whisper_model_load_failure (E : Whisper.env) a e :
  Whisper.load_model E (Whisper.model a) (Whisper.device a) = Err e ->
  Whisper.transcribed E a =
  ([ELoadModel (Whisper.model a) (Whisper.device a)], Raised e).
Proof. intros H. unfold Whisper.transcribed. rewrite H. reflexivity. Qed.

Lemma transcription_failure (E : Whisper.env) a m e :
  Whisper.load_model E (Whisper.model a) (Whisper.device a) = Ok m ->
  Whisper.transcribe E m (Whisper.audio a) (Whisper.language a) = Err e ->
  Whisper.transcribed E a =
  ([ELoadModel (Whisper.model a) (Whisper.device a);
    ETranscribe m (Whisper.audio a) (Whisper.language a)], Raised e).
Proof.
  intros H1 H2. unfold Whisper.transcribed. rewrite H1. cbn. rewrite H2.
  reflexivity.
Qed.

Lemma whisper_run_main (E : Whisper.env) : whisper_run E (run (Whisper.main E)).
Proof.
  unfold Whisper.main.
  destruct (Whisper.argv E) as [a| |] eqn:Hargv; cbn.
  2:{ now apply wr_usage. }
  2:{ now apply wr_help. }
  destruct (Whisper.import_whisper E) as [e|] eqn:Himp; cbn.
  - unfold except_ImportError.
    destruct (exc_is_import_error e) eqn:Hie; cbn.
    + now apply wr_not_installed with (a := a) (e := e).
    + now apply wr_import_crash with (a := a).
  - destruct (transcribed_cases E a)
      as [(tr & e & Hb & _) | (m & d & words & _ & _ & _ & Hb)];
      rewrite Hb; cbn.
    + now apply wr_failed with (a := a).
    + now apply wr_succeeded with (a := a).
Qed.

(** The documents of a trace that ends with a print. *)
Lemma documents_app (tr tr' : list event) :
  documents (tr ++ tr') = (documents tr ++ documents tr')%list.
Proof.
  induction tr as [|ev tr IH]; simpl; [reflexivity|].
  destruct ev; simpl; rewrite IH; reflexivity.
Qed.

Lemma In_documents (s : stream) (doc : pyval) (tr : list event) :
  In (EPrint s doc) tr <-> In (s, doc) (documents tr).
Proof.
  induction tr as [|ev tr IH]; simpl; [tauto|].
  destruct ev; simpl; rewrite <- IH;
    try (split; [intros [H|H]; [discriminate|auto] | auto]).
  split.
  - intros [H|H]; [inversion H; auto | auto].
  - intros [H|H]; [inversion H; auto | auto].
Qed.

Lemma aligned_raised_silent (E : Align.env) a t dev tr e :
  Align.aligned E a t dev = (tr, Raised e) -> documents tr = [].
Proof.
  intros H.
  destruct (aligned_cases E a t dev)
    as [(tr' & e' & Hb & Hd) | (mm & audio & q & res & words & _ & _ & _ & _ & _ & Hb)];
    congruence.
Qed.

Lemma aligned_normal_inv (E : Align.env) a t dev tr :
  Align.aligned E a t dev = (tr, Normal tt) ->
  exists mm audio q res words,
    Align.load_align_model E (Align.language a) dev = Ok mm
    /\ Align.load_audio E (Align.audio_path a) = Ok audio
    /\ int_truediv (Z.of_N (nd_len audio)) 16000 = Ok q
    /\ Align.align E (one_segment t q) (fst mm) (snd mm) audio dev = Ok res
    /\ Align.extract_words res = Ok words
    /\ tr = [ELoadAlignModel (Align.language a) dev;
             ELoadAudio (Align.audio_path a);
             EAlign (one_segment t q) (fst mm) (snd mm) audio dev;
             EPrint Stdout (align_output a q words)].
Proof.
  intros H.
  destruct (aligned_cases E a t dev)
    as [(tr' & e' & Hb & Hd) | (mm & audio & q & res & words & H1 & H2 & H3 & H4 & H5 & Hb)];
    [congruence|].
  exists mm, audio, q, res, words. repeat split; try assumption. congruence.
Qed.

Lemma transcribed_raised_silent (E : Whisper.env) a tr e :
  Whisper.transcribed E a = (tr, Raised e) -> documents tr = [].
Proof.
  intros H.
  destruct (transcribed_cases E a)
    as [(tr' & e' & Hb & Hd) | (m & d & words & _ & _ & _ & Hb)]; congruence.
Qed.

Lemma transcribed_normal_inv (E : Whisper.env) a tr :
  Whisper.transcribed E a = (tr, Normal tt) ->
  exists m d words,
    Whisper.load_model E (Whisper.model a) (Whisper.device a) = Ok m
    /\ Whisper.transcribe E m (Whisper.audio a) (Whisper.language a) = Ok (PDict d)
    /\ Whisper.extract_words (PDict d) = Ok words
    /\ tr = [ELoadModel (Whisper.model a) (Whisper.device a);
             ETranscribe m (Whisper.audio a) (Whisper.language a);
             EPrint Stdout (whisper_output a d words)].
Proof.
  intros H.
  destruct (transcribed_cases E a)
    as [(tr' & e' & Hb & Hd) | (m & d & words & H1 & H2 & H3 & Hb)];
    [congruence|].
  exists m, d, words. repeat split; try assumption. congruence.
Qed.

(** Case analysis on the run of a tool, and the bookkeeping that goes with
    it: the hypotheses of the cases speak about one namespace. *)
Ltac align_cases E :=
  generalize (align_run_main E); generalize (run (Align.main E));
  let p := fresh "p" in let R := fresh "R" in intros p R; destruct R.

Ltac whisper_cases E :=
  generalize (whisper_run_main E); generalize (run (Whisper.main E));
  let p := fresh "p" in let R := fresh "R" in intros p R; destruct R.

Ltac open_reach :=
  repeat match goal with
  | H : reaches_imports _ _ _ |- _ => destruct H as (? & ? & ? & ? & ?)
  end.

Ltac same_namespace :=
  open_reach;
  repeat match goal with
  | H1 : ?f ?E = Namespace ?a, H2 : ?f ?E = Namespace ?b |- _ =>
      first [ constr_eq a b; clear H2
            | assert (b = a) by congruence; subst b; clear H2 ]
  end.

Ltac payload s doc :=
  exists s, doc; cbn;
  repeat split; try reflexivity; try discriminate; try (intros; discriminate).

(** A run succeeds whenever nothing on its way fails: success is not only
    what the theorems below assume, it is what the surroundings decide. *)
Lemma align_run_succeeds (E : Align.env) a contents mm audio q res words :
  reaches_imports E a contents ->
  Align.import_whisperx_torch E = None ->
  Align.load_align_model E (Align.language a) (align_device E a) = Ok mm ->
  Align.load_audio E (Align.audio_path a) = Ok audio ->
  int_truediv (Z.of_N (nd_len audio)) 16000 = Ok q ->
  Align.align E (one_segment (strip contents) q) (fst mm) (snd mm) audio
    (align_device E a) = Ok res ->
  Align.extract_words res = Ok words ->
  run (Align.main E)
  = exited [ELoadAlignModel (Align.language a) (align_device E a);
            ELoadAudio (Align.audio_path a);
            EAlign (one_segment (strip contents) q) (fst mm) (snd mm) audio
              (align_device E a);
            EPrint Stdout (align_output a q words)] 0.
Proof.
  intros Hreach Himp Hm Ha Hq Hr Hw.
  assert (Align.aligned E a (strip contents) (align_device E a)
          = ([ELoadAlignModel (Align.language a) (align_device E a);
              ELoadAudio (Align.audio_path a);
              EAlign (one_segment (strip contents) q) (fst mm) (snd mm) audio
                (align_device E a);
              EPrint Stdout (align_output a q words)], Normal tt)) as Hb.
  { unfold Align.aligned, one_segment in *. rewrite Hm. cbn. rewrite Ha. cbn.
    rewrite Hq. cbn. rewrite Hr. cbn. rewrite Hw. reflexivity. }
  destruct Hreach as (Hargv & Haudio & Htext & Hread & Hstrip).
  align_cases E; same_namespace; congruence.
Qed.

Lemma whisper_run_succeeds (E : Whisper.env) a m d words :
  Whisper.argv E = Namespace a ->
  Whisper.import_whisper E = None ->
  Whisper.load_model E (Whisper.model a) (Whisper.device a) = Ok m ->
  Whisper.transcribe E m (Whisper.audio a) (Whisper.language a) = Ok (PDict d) ->
  Whisper.extract_words (PDict d) = Ok words ->
  run (Whisper.main E)
  = exited [ELoadModel (Whisper.model a) (Whisper.device a);
            ETranscribe m (Whisper.audio a) (Whisper.language a);
            EPrint Stdout (whisper_output a d words)] 0.
Proof.
  intros Hargv Himp Hm Hr Hw.
  assert (Whisper.transcribed E a
          = ([ELoadModel (Whisper.model a) (Whisper.device a);
              ETranscribe m (Whisper.audio a) (Whisper.language a);
              EPrint Stdout (whisper_output a d words)], Normal tt)) as Hb.
  { unfold Whisper.transcribed. rewrite Hm. cbn. rewrite Hr. cbn. rewrite Hw.
    reflexivity. }
  whisper_cases E; same_namespace; congruence.
Qed.

(* ===================================================================== *)
(** ** One payload per invocation *)
(* ===================================================================== *)

(** C1, as the specification states it: every invocation emits exactly one payload.  It
    fails where the process is cut short: a transcript that is not valid
    UTF-8 ends the alignment tool with a traceback and status 1 and no
    JSON at all, a bad command line ends the transcription tool in
    argparse with status 2, and [--help] gives status 0 without a success
    object. *)
Lemma one_payload_cut_short :
  let unreadable := set_read_text Samples.align_ok
                      (fun _ => Err Samples.undecodable) in
  let help := set_argv Samples.align_ok ParserHelp in
  (documents (trace (run (Align.main unreadable))) = []
   /\ exit_code (run (Align.main unreadable)) = 1%Z
   /\ ~ one_payload align_success_doc (run (Align.main unreadable)))
  /\ (documents (trace (run (Whisper.main Samples.whisper_bad_usage))) = []
      /\ exit_code (run (Whisper.main Samples.whisper_bad_usage)) = 2%Z
      /\ ~ one_payload whisper_success_doc
             (run (Whisper.main Samples.whisper_bad_usage)))
  /\ (documents (trace (run (Align.main help))) = []
      /\ exit_code (run (Align.main help)) = 0%Z
      /\ ~ one_payload align_success_doc (run (Align.main help))).
Proof.
  cbv zeta. repeat split; try reflexivity;
    intros (s & doc & H & _); vm_compute in H; discriminate.
Qed.

(** C1, amended: an invocation whose command line argparse accepts and
    which no uncaught exception ends emits exactly one payload, a success
    object or an error object; its status is 0 exactly when it is the
    success object and 1 exactly when it is the error object.  When
    argparse ends the process nothing is emitted. *)
Theorem one_payload_per_invocation :
  (forall E a,
      Align.argv E = Namespace a ->
      uncaught (run (Align.main E)) = None ->
      one_payload align_success_doc (run (Align.main E)))
  /\ (forall E a,
      Whisper.argv E = Namespace a ->
      uncaught (run (Whisper.main E)) = None ->
      one_payload whisper_success_doc (run (Whisper.main E)))
  /\ (forall E,
      Align.argv E = ParserError \/ Align.argv E = ParserHelp ->
      documents (trace (run (Align.main E))) = [])
  /\ (forall E,
      Whisper.argv E = ParserError \/ Whisper.argv E = ParserHelp ->
      documents (trace (run (Whisper.main E))) = []).
Proof.
  split; [|split; [|split]].
  - intros E a Hargv. align_cases E; intros Hu; try discriminate Hu;
      try congruence; unfold one_payload.
    + payload Stderr (Align.error_doc (lit "Audio file not found: "
                                       ++ Align.audio_path a0)).
    + payload Stderr (Align.error_doc (lit "Text file not found: "
                                       ++ Align.text_path a0)).
    + payload Stderr (Align.error_doc (lit "Transcript is empty")).
    + payload Stderr (Align.error_doc
                        (lit "Missing dependency: " ++ exc_msg e
                         ++ lit ". Install with: pip install whisperx torch")).
    + exists Stderr, (align_failure_doc e). cbn.
      rewrite documents_app.
      match goal with H : Align.aligned _ _ _ _ = _ |- _ =>
        rewrite (aligned_raised_silent _ _ _ _ H) end.
      repeat split; try reflexivity; try discriminate; intros; discriminate.
    + match goal with H : Align.aligned _ _ _ _ = _ |- _ =>
        destruct (aligned_normal_inv _ _ _ _ H)
          as (mm & audio & q & res & words & _ & _ & _ & _ & _ & ->) end.
      payload Stdout (align_output a0 q words).
  - intros E a Hargv. whisper_cases E; intros Hu; try discriminate Hu;
      try congruence; unfold one_payload.
    + payload Stdout not_installed_doc.
    + exists Stdout, (Whisper.error_doc (exc_msg e)). cbn.
      rewrite documents_app.
      match goal with H : Whisper.transcribed _ _ = _ |- _ =>
        rewrite (transcribed_raised_silent _ _ H) end.
      repeat split; try reflexivity; try discriminate; intros; discriminate.
    + match goal with H : Whisper.transcribed _ _ = _ |- _ =>
        destruct (transcribed_normal_inv _ _ H)
          as (m & d & words & _ & _ & _ & ->) end.
      payload Stdout (whisper_output a0 d words).
  - intros E. align_cases E; intros [Hcut|Hcut]; same_namespace;
      try reflexivity; congruence.
  - intros E. whisper_cases E; intros [Hcut|Hcut]; same_namespace;
      try reflexivity; congruence.
Qed.

Lemma one_payload_per_invocation_witness :
  one_payload align_success_doc (run (Align.main Samples.align_ok))
  /\ one_payload whisper_success_doc (run (Whisper.main Samples.whisper_not_installed)).
Proof.
  split.
  - apply (proj1 one_payload_per_invocation Samples.align_ok
             (Align.with_defaults (lit "a.wav") (lit "t.txt")));
      reflexivity.
  - apply (proj1 (proj2 one_payload_per_invocation) Samples.whisper_not_installed
             (Whisper.with_defaults (lit "a.wav")));
      reflexivity.
Defined.

(* ===================================================================== *)
(** ** Validation before any library call *)
(* ===================================================================== *)

(** C2: when the audio path does not exist, the alignment tool prints one
    JSON object with an [error] key on stderr and exits with status 1; that
    print is the whole trace, so no model was loaded and nothing was
    aligned. *)
Theorem missing_audio_fails_first (E : Align.env) (a : Align.args) :
  Align.argv E = Namespace a ->
  Align.path_exists E (Align.audio_path a) = false ->
  exists doc,
    trace (run (Align.main E)) = [EPrint Stderr doc]
    /\ has_key "error" doc = true
    /\ exit_code (run (Align.main E)) = 1%Z
    /\ library_calls (trace (run (Align.main E))) = [].
Proof.
  intros Hargv Haudio. align_cases E; same_namespace; try congruence.
  eexists. repeat split; reflexivity.
Qed.

Lemma missing_audio_fails_first_witness :
  exists doc,
    trace (run (Align.main (set_path_exists Samples.align_ok
                              (fun _ => false)))) = [EPrint Stderr doc]
    /\ has_key "error" doc = true
    /\ exit_code (run (Align.main (set_path_exists Samples.align_ok
                                     (fun _ => false)))) = 1%Z
    /\ library_calls
         (trace (run (Align.main (set_path_exists Samples.align_ok
                                    (fun _ => false))))) = [].
Proof.
  apply (@missing_audio_fails_first
           (set_path_exists Samples.align_ok (fun _ => false))
           (Align.with_defaults (lit "a.wav") (lit "t.txt")));
    reflexivity.
Defined.

(** C3: when the transcript file exists and what is read from it is empty
    after [strip()], the alignment tool exits with status 1 having printed
    one JSON object with an [error] key, and no library call was reached,
    the alignment entry point least of all. *)
Theorem blank_transcript_fails (E : Align.env) (a : Align.args)
    (contents : pystr) :
  Align.argv E = Namespace a ->
  Align.path_exists E (Align.text_path a) = true ->
  Align.read_text E (Align.text_path a) = Ok contents ->
  strip contents = [] ->
  exists doc,
    documents (trace (run (Align.main E))) = [(Stderr, doc)]
    /\ has_key "error" doc = true
    /\ exit_code (run (Align.main E)) = 1%Z
    /\ filter is_align_call (trace (run (Align.main E))) = []
    /\ library_calls (trace (run (Align.main E))) = [].
Proof.
  intros Hargv Htext Hread Hblank. align_cases E; same_namespace;
    try congruence;
    eexists; repeat split; reflexivity.
Qed.

Lemma blank_transcript_fails_witness :
  let E := set_read_text Samples.align_ok
             (fun _ => Ok [32; 9; 10; 160; 8195]%N) in
  exists doc,
    documents (trace (run (Align.main E))) = [(Stderr, doc)]
    /\ has_key "error" doc = true
    /\ exit_code (run (Align.main E)) = 1%Z
    /\ filter is_align_call (trace (run (Align.main E))) = []
    /\ library_calls (trace (run (Align.main E))) = [].
Proof.
  apply (@blank_transcript_fails
           (set_read_text Samples.align_ok
              (fun _ => Ok [32; 9; 10; 160; 8195]%N))
           (Align.with_defaults (lit "a.wav") (lit "t.txt"))
           [32; 9; 10; 160; 8195]%N);
    reflexivity.
Defined.

(* ===================================================================== *)
(** ** Device and compute type *)
(* ===================================================================== *)

Lemma resolve_device_cpu (cuda : bool) (requested : pystr) :
  Align.resolve_device cuda requested = lit "cpu" <->
  requested = lit "cpu" \/ (requested = lit "auto" /\ cuda = false).
Proof.
  unfold Align.resolve_device.
  destruct (pystr_eqb requested (lit "auto")) eqn:Hauto.
  - apply pystr_eqb_eq in Hauto. subst requested.
    destruct cuda; split.
    + discriminate.
    + intros [H|[_ H]]; discriminate.
    + auto.
    + reflexivity.
  - apply pystr_eqb_neq in Hauto. split.
    + auto.
    + intros [H|[H _]]; [assumption | contradiction].
Qed.

(** C4, as the specification states it: on CPU with float16 requested the compute type
    passed onward is int8.  In the default invocation without an
    accelerator the device resolves to cpu and float16 is requested, yet no
    library call of the run has int8 among its arguments: the tool passes
    no compute type to any call. *)
Lemma int8_is_not_passed_on :
  Align.resolve_device (Align.cuda_is_available Samples.align_ok)
    (Align.device (Align.with_defaults (lit "a.wav") (lit "t.txt")))
  = lit "cpu"
  /\ Align.compute_type (Align.with_defaults (lit "a.wav") (lit "t.txt"))
     = lit "float16"
  /\ List.length (library_calls (trace (run (Align.main Samples.align_ok)))) = 3
  /\ forallb (fun ev => negb (existsb (pystr_eqb (lit "int8"))
                                      (string_arguments ev)))
       (library_calls (trace (run (Align.main Samples.align_ok)))) = true.
Proof. repeat split; vm_compute; reflexivity. Qed.

(** C4, amended: when the device resolves to cpu (requested as such, or
    chosen for auto when no accelerator is available) and float16 is
    requested, the compute type the tool settles on is int8, and on cpu it
    is never float16.  The tool hands no compute type to any library call:
    the run is the same whatever compute type was requested. *)
Theorem compute_type_on_cpu (cuda : bool) (requested_device requested : pystr) :
  requested_device = lit "cpu" \/ (requested_device = lit "auto" /\ cuda = false) ->
  Align.resolve_device cuda requested_device = lit "cpu"
  /\ (requested = lit "float16" ->
      Align.adjust_compute_type (Align.resolve_device cuda requested_device)
        requested = lit "int8")
  /\ Align.adjust_compute_type (Align.resolve_device cuda requested_device)
       requested <> lit "float16"
  /\ (forall E a c,
        Align.argv E = Namespace a ->
        run (Align.main (set_argv E (Namespace (set_compute_type a c))))
        = run (Align.main E)).
Proof.
  intros Hdev. apply resolve_device_cpu in Hdev. rewrite Hdev.
  split; [reflexivity|]. split; [|split].
  - intros ->. reflexivity.
  - unfold Align.adjust_compute_type. rewrite pystr_eqb_refl. simpl.
    destruct (pystr_eqb requested (lit "float16")) eqn:H16.
    + discriminate.
    + apply pystr_eqb_neq. exact H16.
  - intros E a c Hargv. unfold Align.main. rewrite Hargv. reflexivity.
Qed.

Lemma compute_type_on_cpu_witness :
  Align.resolve_device false (lit "auto") = lit "cpu"
  /\ (lit "float16" = lit "float16" ->
      Align.adjust_compute_type (Align.resolve_device false (lit "auto"))
        (lit "float16") = lit "int8")
  /\ Align.adjust_compute_type (Align.resolve_device false (lit "auto"))
       (lit "float16") <> lit "float16"
  /\ (forall E a c,
        Align.argv E = Namespace a ->
        run (Align.main (set_argv E (Namespace (set_compute_type a c))))
        = run (Align.main E)).
Proof.
  apply (@compute_type_on_cpu false (lit "auto") (lit "float16")).
  right. split; reflexivity.
Defined.

(* ===================================================================== *)
(** ** Flattening *)
(* ===================================================================== *)

(** C5, as the specification states it: each tool rounds the timing fields to three
    decimals and copies the score only when the source record has one.
    The transcription tool does neither: for a word that ends at 0.12345
    and has no probability it emits the end 0.12345, which [round] would
    have made 0.123, and a [probability] key holding [None]. *)
Lemma transcription_copies_unrounded :
  exists w,
    Whisper.extract_words Samples.transcribed_result = Ok [w]
    /\ nested_words Samples.transcribed_result
       = Some [[ [(lit "word", PStr (lit " hello"));
                  (lit "start", PFloat Samples.f2_0);
                  (lit "end", PFloat Samples.f0_12345)] ]]
    /\ field "end" w = Some (PFloat Samples.f0_12345)
    /\ py_round3 (PFloat Samples.f0_12345) = Ok (PFloat Samples.f0_123)
    /\ Samples.f0_12345 <> Samples.f0_123
    /\ field "probability" w = Some PNone.
Proof.
  eexists. repeat split; try (vm_compute; reflexivity). discriminate.
Qed.

(** C5, amended: for every well-formed nested result (a dict whose
    segments are a list of dicts whose words are lists of dicts) the
    flattening step of each tool returns one record per word, in order.
    The alignment tool, given timing and score fields that are numbers
    where present, emits start and end rounded to three decimals and a
    confidence exactly when the source record has a score, rounded too.
    The transcription tool emits start and end as they are and always a
    probability, [None] when the source record has none. *)
Theorem flattening_fields :
  (forall res wss,
      nested_words res = Some wss ->
      forallb timed (List.concat wss) = true ->
      exists words,
        Align.extract_words res = Ok words
        /\ Forall2 align_emits (List.concat wss) words)
  /\ (forall res wss,
      nested_words res = Some wss ->
      exists words,
        Whisper.extract_words res = Ok words
        /\ Forall2 whisper_emits (List.concat wss) words).
Proof.
  split.
  - exact align_flatten_nested.
  - exact whisper_flatten_nested.
Qed.

Lemma flattening_fields_witness :
  (exists words,
      Align.extract_words Samples.aligned_result = Ok words
      /\ Forall2 align_emits
           [ [(lit "word", PStr (lit "hello"));
              (lit "start", PFloat Samples.f0_12345);
              (lit "end", PFloat Samples.f0_5);
              (lit "score", PFloat Samples.f0_5)];
             [(lit "word", PStr (lit "world"))] ] words)
  /\ (exists words,
      Whisper.extract_words Samples.transcribed_result = Ok words
      /\ Forall2 whisper_emits
           [ [(lit "word", PStr (lit " hello"));
              (lit "start", PFloat Samples.f2_0);
              (lit "end", PFloat Samples.f0_12345)] ] words).
Proof.
  split.
  - apply (proj1 flattening_fields Samples.aligned_result
             [[ [(lit "word", PStr (lit "hello"));
                 (lit "start", PFloat Samples.f0_12345);
                 (lit "end", PFloat Samples.f0_5);
                 (lit "score", PFloat Samples.f0_5)];
                [(lit "word", PStr (lit "world"))] ]]);
      reflexivity.
  - apply (proj2 flattening_fields Samples.transcribed_result
             [[ [(lit "word", PStr (lit " hello"));
                 (lit "start", PFloat Samples.f2_0);
                 (lit "end", PFloat Samples.f0_12345)] ]]);
      reflexivity.
Defined.

(* ===================================================================== *)
(** ** Successful invocations *)
(* ===================================================================== *)

Lemma not_printed (s : stream) (doc : pyval) (tr : list event) :
  documents tr = [] -> ~ In (EPrint s doc) tr.
Proof. intros H K. apply In_documents in K. rewrite H in K. exact K. Qed.

(** Whatever the alignment tool prints on stdout is its success object,
    and the run behind it is the one straight path through [main]. *)
Lemma align_success_inv (E : Align.env) (doc : pyval) :
  In (EPrint Stdout doc) (trace (run (Align.main E))) ->
  exists a contents mm audio q res words,
    reaches_imports E a contents
    /\ Align.import_whisperx_torch E = None
    /\ Align.load_align_model E (Align.language a) (align_device E a) = Ok mm
    /\ Align.load_audio E (Align.audio_path a) = Ok audio
    /\ int_truediv (Z.of_N (nd_len audio)) 16000 = Ok q
    /\ Align.align E (one_segment (strip contents) q) (fst mm) (snd mm) audio
         (align_device E a) = Ok res
    /\ Align.extract_words res = Ok words
    /\ run (Align.main E)
       = exited [ELoadAlignModel (Align.language a) (align_device E a);
                 ELoadAudio (Align.audio_path a);
                 EAlign (one_segment (strip contents) q) (fst mm) (snd mm)
                   audio (align_device E a);
                 EPrint Stdout (align_output a q words)] 0
    /\ doc = align_output a q words.
Proof.
  align_cases E; cbn; intros Hin;
    try (destruct Hin as [Hin|[]]; discriminate Hin).
  - apply in_app_or in Hin. destruct Hin as [Hin|[Hin|[]]]; [|discriminate Hin].
    exfalso. eapply not_printed; [|exact Hin].
    eapply aligned_raised_silent; eassumption.
  - match goal with H : Align.aligned _ _ _ _ = _ |- _ =>
      destruct (aligned_normal_inv _ _ _ _ H)
        as (mm & audio & q & res & words & Ka & Kb & Kc & Kd & Ke & ->) end.
    cbn in Hin.
    destruct Hin as [Hin|[Hin|[Hin|[Hin|[]]]]]; try discriminate Hin.
    inversion Hin; subst doc.
    exists a, contents, mm, audio, q, res, words.
    split; [assumption|]. repeat split; try assumption; reflexivity.
Qed.

(** Whatever the transcription tool prints on stdout that is not an error
    object is its success object. *)
Lemma whisper_success_inv (E : Whisper.env) (doc : pyval) :
  In (EPrint Stdout doc) (trace (run (Whisper.main E))) ->
  whisper_success_doc doc = true ->
  exists a m d words,
    Whisper.argv E = Namespace a
    /\ Whisper.import_whisper E = None
    /\ Whisper.load_model E (Whisper.model a) (Whisper.device a) = Ok m
    /\ Whisper.transcribe E m (Whisper.audio a) (Whisper.language a) = Ok (PDict d)
    /\ Whisper.extract_words (PDict d) = Ok words
    /\ run (Whisper.main E)
       = exited [ELoadModel (Whisper.model a) (Whisper.device a);
                 ETranscribe m (Whisper.audio a) (Whisper.language a);
                 EPrint Stdout (whisper_output a d words)] 0
    /\ doc = whisper_output a d words.
Proof.
  whisper_cases E; cbn; intros Hin Hdoc;
    try (destruct Hin as [Hin|[]]; discriminate Hin).
  - destruct Hin as [Hin|[]]. inversion Hin; subst doc. discriminate Hdoc.
  - apply in_app_or in Hin. destruct Hin as [Hin|[Hin|[]]].
    + exfalso. eapply not_printed; [|exact Hin].
      eapply transcribed_raised_silent; eassumption.
    + inversion Hin; subst doc. discriminate Hdoc.
  - match goal with H : Whisper.transcribed _ _ = _ |- _ =>
      destruct (transcribed_normal_inv _ _ H)
        as (m & d & words & Ka & Kb & Kc & ->) end.
    cbn in Hin.
    destruct Hin as [Hin|[Hin|[Hin|[]]]]; try discriminate Hin.
    inversion Hin; subst doc.
    exists a, m, d, words. repeat split; try assumption; reflexivity.
Qed.

(** C7, as the specification states it: every word of a successful transcription has
    [start <= end].  The tool copies what the library returns: when the
    library gives a word from 2.0 to 0.12345 the run succeeds and emits
    that word with its start after its end. *)
Lemma transcribed_start_after_end :
  exists doc w,
    documents (trace (run (Whisper.main Samples.whisper_ok))) = [(Stdout, doc)]
    /\ whisper_success_doc doc = true
    /\ exit_code (run (Whisper.main Samples.whisper_ok)) = 0%Z
    /\ field "words" doc = Some (PList [w])
    /\ field "start" w = Some (PFloat Samples.f2_0)
    /\ field "end" w = Some (PFloat Samples.f0_12345)
    /\ starts_before_end w = false.
Proof. do 2 eexists. repeat split; vm_compute; reflexivity. Qed.

(** C7, amended: in every successful transcription the flat [words] list
    is, record for record, the concatenation in segment order of each
    segment's word list as the library returned it; every emitted record
    carries the start and the end of its source record unchanged (0 where
    absent), so [start <= end] holds for an emitted word exactly when it
    holds for the library's. *)
Theorem transcription_words_in_order (E : Whisper.env) (doc : pyval) :
  In (EPrint Stdout doc) (trace (run (Whisper.main E))) ->
  whisper_success_doc doc = true ->
  exists a m d segs wss words,
    Whisper.argv E = Namespace a
    /\ Whisper.transcribe E m (Whisper.audio a) (Whisper.language a) = Ok (PDict d)
    /\ segments_of (PDict d) = Ok segs
    /\ Forall2 (fun s ws => words_of s = Ok ws) segs wss
    /\ field "words" doc = Some (PList words)
    /\ Forall2
         (fun src w =>
            exists sd,
              src = PDict sd
              /\ whisper_emits sd w
              /\ starts_before_end w
                 = num_le (dict_get sd (lit "start") (PInt 0))
                          (dict_get sd (lit "end") (PInt 0)))
         (List.concat wss) words.
Proof.
  intros Hin Hdoc.
  destruct (whisper_success_inv E doc Hin Hdoc)
    as (a & m & d & words & Hargv & _ & _ & Htr & Hw & _ & ->).
  apply whisper_extract_words_ok in Hw.
  destruct Hw as (segs & wss & Hs & Hws & Hrec).
  exists a, m, d, segs, wss, words. repeat split; try assumption.
  eapply Forall2_impl; [|exact Hrec].
  intros src w Hsrc. cbv beta in Hsrc.
  destruct (whisper_word_record_inv _ Hsrc) as [sd ->].
  exists sd. split; [reflexivity|].
  rewrite whisper_word_record_dict in Hsrc. inversion Hsrc; subst w.
  split; [|reflexivity]. repeat split.
Qed.

Lemma transcription_words_in_order_witness :
  exists a m d segs wss words,
    Whisper.argv Samples.whisper_ok = Namespace a
    /\ Whisper.transcribe Samples.whisper_ok m (Whisper.audio a)
         (Whisper.language a) = Ok (PDict d)
    /\ segments_of (PDict d) = Ok segs
    /\ Forall2 (fun s ws => words_of s = Ok ws) segs wss
    /\ field "words"
         (whisper_output (Whisper.with_defaults (lit "a.wav"))
            [(lit "text", PStr (lit " hello"));
             (lit "segments",
              PList [PDict [(lit "words",
                             PList [PDict [(lit "word", PStr (lit " hello"));
                                           (lit "start", PFloat Samples.f2_0);
                                           (lit "end", PFloat Samples.f0_12345)]])]])]
            [PDict [(lit "word", PStr (lit " hello"));
                    (lit "start", PFloat Samples.f2_0);
                    (lit "end", PFloat Samples.f0_12345);
                    (lit "probability", PNone)]])
       = Some (PList words)
    /\ Forall2
         (fun src w =>
            exists sd,
              src = PDict sd
              /\ whisper_emits sd w
              /\ starts_before_end w
                 = num_le (dict_get sd (lit "start") (PInt 0))
                          (dict_get sd (lit "end") (PInt 0)))
         (List.concat wss) words.
Proof.
  apply (@transcription_words_in_order Samples.whisper_ok).
  - right; right; left. reflexivity.
  - reflexivity.
Defined.

(** C8: in every successful invocation of the alignment tool the
    alignment call is made exactly once, on a list of exactly one segment
    whose text is the stripped transcript, whose start is 0.0 and whose end
    is the sample count of the loaded audio divided by 16000; the
    [duration] of the success object is that quotient rounded to three
    decimals. *)
Theorem one_segment_spans_audio (E : Align.env) (doc : pyval) :
  In (EPrint Stdout doc) (trace (run (Align.main E))) ->
  exists a contents mm audio seconds,
    Align.argv E = Namespace a
    /\ Align.read_text E (Align.text_path a) = Ok contents
    /\ Align.load_audio E (Align.audio_path a) = Ok audio
    /\ int_truediv (Z.of_N (nd_len audio)) 16000 = Ok seconds
    /\ filter is_align_call (trace (run (Align.main E)))
       = [EAlign (PList [PDict [(lit "text", PStr (strip contents));
                                (lit "start", PFloat (S754_zero false));
                                (lit "end", PFloat seconds)]])
            (fst mm) (snd mm) audio (align_device E a)]
    /\ field "duration" doc = Some (PFloat (float_round3 seconds))
    /\ align_success_doc doc = true
    /\ exit_code (run (Align.main E)) = 0%Z.
Proof.
  intros Hin.
  destruct (align_success_inv E doc Hin)
    as (a & contents & mm & audio & q & res & words
        & Hreach & _ & _ & Haudio & Hq & _ & _ & Hrun & ->).
  destruct Hreach as (Hargv & _ & _ & Hread & _).
  exists a, contents, mm, audio, q. rewrite Hrun.
  repeat split; try assumption; reflexivity.
Qed.

Lemma one_segment_spans_audio_witness :
  exists a contents mm audio seconds,
    Align.argv Samples.align_ok = Namespace a
    /\ Align.read_text Samples.align_ok (Align.text_path a) = Ok contents
    /\ Align.load_audio Samples.align_ok (Align.audio_path a) = Ok audio
    /\ int_truediv (Z.of_N (nd_len audio)) 16000 = Ok seconds
    /\ filter is_align_call (trace (run (Align.main Samples.align_ok)))
       = [EAlign (PList [PDict [(lit "text", PStr (strip contents));
                                (lit "start", PFloat (S754_zero false));
                                (lit "end", PFloat seconds)]])
            (fst mm) (snd mm) audio
            (align_device Samples.align_ok a)]
    /\ field "duration"
         (align_output (Align.with_defaults (lit "a.wav") (lit "t.txt"))
            Samples.f2_0
            [PDict [(lit "word", PStr (lit "hello"));
                    (lit "start", PFloat Samples.f0_123);
                    (lit "end", PFloat Samples.f0_5);
                    (lit "confidence", PFloat Samples.f0_5)];
             PDict [(lit "word", PStr (lit "world"));
                    (lit "start", PInt 0);
                    (lit "end", PInt 0)]])
       = Some (PFloat (float_round3 seconds))
    /\ align_success_doc
         (align_output (Align.with_defaults (lit "a.wav") (lit "t.txt"))
            Samples.f2_0
            [PDict [(lit "word", PStr (lit "hello"));
                    (lit "start", PFloat Samples.f0_123);
                    (lit "end", PFloat Samples.f0_5);
                    (lit "confidence", PFloat Samples.f0_5)];
             PDict [(lit "word", PStr (lit "world"));
                    (lit "start", PInt 0);
                    (lit "end", PInt 0)]]) = true
    /\ exit_code (run (Align.main Samples.align_ok)) = 0%Z.
Proof.
  apply (@one_segment_spans_audio Samples.align_ok).
  right; right; right; left. reflexivity.
Defined.

(** C9: in every successful invocation of the alignment tool the
    [word_count] of the success object is the number of entries of its
    [words] list. *)
Theorem word_count_is_length (E : Align.env) (doc : pyval) :
  In (EPrint Stdout doc) (trace (run (Align.main E))) ->
  exists words,
    field "words" doc = Some (PList words)
    /\ field "word_count" doc = Some (PInt (Z.of_nat (List.length words)))
    /\ align_success_doc doc = true.
Proof.
  intros Hin.
  destruct (align_success_inv E doc Hin)
    as (a & contents & mm & audio & q & res & words & _ & _ & _ & _ & _ & _ & _ & _ & ->).
  exists words. repeat split.
Qed.

Lemma word_count_is_length_witness :
  exists words,
    field "words"
      (align_output (Align.with_defaults (lit "a.wav") (lit "t.txt"))
         Samples.f2_0
         [PDict [(lit "word", PStr (lit "hello"));
                 (lit "start", PFloat Samples.f0_123);
                 (lit "end", PFloat Samples.f0_5);
                 (lit "confidence", PFloat Samples.f0_5)];
          PDict [(lit "word", PStr (lit "world"));
                 (lit "start", PInt 0);
                 (lit "end", PInt 0)]])
    = Some (PList words)
    /\ field "word_count"
         (align_output (Align.with_defaults (lit "a.wav") (lit "t.txt"))
            Samples.f2_0
            [PDict [(lit "word", PStr (lit "hello"));
                    (lit "start", PFloat Samples.f0_123);
                    (lit "end", PFloat Samples.f0_5);
                    (lit "confidence", PFloat Samples.f0_5)];
             PDict [(lit "word", PStr (lit "world"));
                    (lit "start", PInt 0);
                    (lit "end", PInt 0)]])
       = Some (PInt (Z.of_nat (List.length words)))
    /\ align_success_doc
         (align_output (Align.with_defaults (lit "a.wav") (lit "t.txt"))
            Samples.f2_0
            [PDict [(lit "word", PStr (lit "hello"));
                    (lit "start", PFloat Samples.f0_123);
                    (lit "end", PFloat Samples.f0_5);
                    (lit "confidence", PFloat Samples.f0_5)];
             PDict [(lit "word", PStr (lit "world"));
                    (lit "start", PInt 0);
                    (lit "end", PInt 0)]]) = true.
Proof.
  apply (@word_count_is_length Samples.align_ok).
  right; right; right; left. reflexivity.
Defined.

(* ===================================================================== *)
(** ** Failures *)
(* ===================================================================== *)

(** C6, as the specification states it: either tool reports a failure as one JSON object
    on standard error.  The transcription tool prints its error object on
    standard output: with openai-whisper missing, stdout carries the one
    document and stderr carries none. *)
Lemma transcription_error_on_stdout :
  exists doc,
    documents (trace (run (Whisper.main Samples.whisper_not_installed)))
    = [(Stdout, doc)]
    /\ is_error_doc doc = true
    /\ exit_code (run (Whisper.main Samples.whisper_not_installed)) = 1%Z
    /\ forall d, ~ In (EPrint Stderr d)
                     (trace (run (Whisper.main Samples.whisper_not_installed))).
Proof.
  eexists. repeat split; try (vm_compute; reflexivity).
  intros d [H|[]]. discriminate H.
Qed.

(** C6, amended: a missing dependency (the import raises [ImportError]), a
    model that fails to load, and any exception raised while the [try]
    body runs are each reported exactly once, as a single JSON error
    object, with exit status 1 and no success output beside it.  The
    alignment tool writes that object to standard error, the transcription
    tool to standard output. *)
Theorem failures_reported_once :
  (forall E a contents e,
      reaches_imports E a contents ->
      (Align.import_whisperx_torch E = Some e /\ exc_is_import_error e = true)
      \/ (Align.import_whisperx_torch E = None
          /\ Align.load_align_model E (Align.language a) (align_device E a) = Err e)
      \/ (Align.import_whisperx_torch E = None
          /\ exists tr,
               Align.aligned E a (strip contents) (align_device E a)
               = (tr, Raised e)) ->
      exists doc,
        documents (trace (run (Align.main E))) = [(Stderr, doc)]
        /\ is_error_doc doc = true
        /\ exit_code (run (Align.main E)) = 1%Z
        /\ uncaught (run (Align.main E)) = None)
  /\ (forall E a e,
      Whisper.argv E = Namespace a ->
      (Whisper.import_whisper E = Some e /\ exc_is_import_error e = true)
      \/ (Whisper.import_whisper E = None
          /\ Whisper.load_model E (Whisper.model a) (Whisper.device a) = Err e)
      \/ (Whisper.import_whisper E = None
          /\ exists tr, Whisper.transcribed E a = (tr, Raised e)) ->
      exists doc,
        documents (trace (run (Whisper.main E))) = [(Stdout, doc)]
        /\ is_error_doc doc = true
        /\ exit_code (run (Whisper.main E)) = 1%Z
        /\ uncaught (run (Whisper.main E)) = None).
Proof.
  split.
  - intros E a contents e Hreach Hfail.
    assert ((Align.import_whisperx_torch E = Some e /\ exc_is_import_error e = true)
            \/ (Align.import_whisperx_torch E = None
                /\ exists tr,
                     Align.aligned E a (strip contents) (align_device E a)
                     = (tr, Raised e))) as Hcase.
    { destruct Hfail as [Hi|[[Hi Hl]|Hr]]; auto.
      right. split; [exact Hi|]. eexists. apply model_load_failure. exact Hl. }
    clear Hfail. destruct Hreach as (Hargv & Haudio & Htext & Hread & Hstrip).
    align_cases E; same_namespace; try congruence;
      destruct Hcase as [[Hi Hie]|[Hi [tr' Hb]]]; try congruence.
    + eexists. repeat split; reflexivity.
    + assert (contents0 = contents) by congruence; subst contents0.
      exists (align_failure_doc e0). cbn. rewrite documents_app.
      match goal with H : Align.aligned _ _ _ _ = (tr, _) |- _ =>
        rewrite (aligned_raised_silent _ _ _ _ H) end.
      repeat split.
  - intros E a e Hargv Hfail.
    assert ((Whisper.import_whisper E = Some e /\ exc_is_import_error e = true)
            \/ (Whisper.import_whisper E = None
                /\ exists tr, Whisper.transcribed E a = (tr, Raised e))) as Hcase.
    { destruct Hfail as [Hi|[[Hi Hl]|Hr]]; auto.
      right. split; [exact Hi|]. eexists. apply whisper_model_load_failure.
      exact Hl. }
    clear Hfail.
    whisper_cases E; same_namespace; try congruence;
      destruct Hcase as [[Hi Hie]|[Hi [tr' Hb]]]; try congruence.
    + eexists. repeat split; reflexivity.
    + exists (Whisper.error_doc (exc_msg e0)). cbn. rewrite documents_app.
      match goal with H : Whisper.transcribed _ _ = (tr, _) |- _ =>
        rewrite (transcribed_raised_silent _ _ H) end.
      repeat split.
Qed.

Lemma failures_reported_once_witness :
  (exists doc,
      documents (trace (run (Align.main Samples.align_no_model)))
      = [(Stderr, doc)]
      /\ is_error_doc doc = true
      /\ exit_code (run (Align.main Samples.align_no_model)) = 1%Z
      /\ uncaught (run (Align.main Samples.align_no_model)) = None)
  /\ (exists doc,
      documents (trace (run (Whisper.main Samples.whisper_not_installed)))
      = [(Stdout, doc)]
      /\ is_error_doc doc = true
      /\ exit_code (run (Whisper.main Samples.whisper_not_installed)) = 1%Z
      /\ uncaught (run (Whisper.main Samples.whisper_not_installed)) = None).
Proof.
  split.
  - apply (proj1 failures_reported_once Samples.align_no_model
             (Align.with_defaults (lit "a.wav") (lit "t.txt"))
             (lit " hello world" ++ [10%N])%list
             Samples.no_align_model).
    + unfold reaches_imports. repeat split; try reflexivity.
      vm_compute. discriminate.
    + right; left. split; reflexivity.
  - apply (proj2 failures_reported_once Samples.whisper_not_installed
             (Whisper.with_defaults (lit "a.wav"))
             (Samples.no_module "whisper")).
    + reflexivity.
    + left. split; reflexivity.
Defined.

(* ===================================================================== *)
(** ** Trimming the transcript *)
(* ===================================================================== *)

Lemma lstrip_split (s : pystr) :
  exists ws, s = (ws ++ lstrip s)%list /\ forallb py_isspace ws = true.
Proof.
  induction s as [|c r IH]; simpl.
  - exists []. split; reflexivity.
  - destruct (py_isspace c) eqn:Hc.
    + destruct IH as (ws & Hs & Hw). exists (c :: ws). simpl.
      rewrite Hc, Hw. split; [congruence | reflexivity].
    + exists []. split; reflexivity.
Qed.

Lemma lstrip_head (s : pystr) (c : N) (r : pystr) :
  lstrip s = c :: r -> py_isspace c = false.
Proof.
  induction s as [|x s IH]; simpl; [discriminate|].
  destruct (py_isspace x) eqn:Hx; [exact IH|].
  intros H; inversion H; subst. exact Hx.
Qed.

Lemma lstrip_nil (s : pystr) :
  lstrip s = [] <-> forallb py_isspace s = true.
Proof.
  induction s as [|x s IH]; simpl; [tauto|].
  destruct (py_isspace x); simpl; [exact IH|].
  split; discriminate.
Qed.

Lemma forallb_rev {A} (f : A -> bool) (l : list A) :
  forallb f (rev l) = forallb f l.
Proof.
  induction l as [|x l IH]; simpl; [reflexivity|].
  rewrite forallb_app, IH. simpl. rewrite andb_true_r. apply andb_comm.
Qed.

Lemma rstrip_split (s : pystr) :
  exists ws, s = (rstrip s ++ ws)%list /\ forallb py_isspace ws = true.
Proof.
  unfold rstrip. destruct (lstrip_split (rev s)) as (ws & Hs & Hw).
  exists (rev ws). split.
  - rewrite <- rev_app_distr, <- Hs, rev_involutive. reflexivity.
  - rewrite forallb_rev. exact Hw.
Qed.

(** What [strip] returns is empty exactly when the string holds nothing
    but whitespace. *)
Lemma strip_nil (s : pystr) :
  strip s = [] <-> forallb py_isspace s = true.
Proof.
  unfold strip, rstrip. split.
  - intros H. apply (f_equal (@rev N)) in H. rewrite rev_involutive in H.
    simpl in H. apply lstrip_nil in H. rewrite forallb_rev in H.
    destruct (lstrip s) as [|c r] eqn:Hl.
    + apply lstrip_nil. exact Hl.
    + apply lstrip_head in Hl. simpl in H. rewrite Hl in H. discriminate.
  - intros H. apply lstrip_nil in H. rewrite H. reflexivity.
Qed.

(** What [strip] returns neither starts nor ends with whitespace. *)
Lemma strip_first (s : pystr) (c : N) (r : pystr) :
  strip s = c :: r -> py_isspace c = false.
Proof.
  unfold strip. intros H.
  destruct (rstrip_split (lstrip s)) as (ws & Hs & _).
  rewrite H in Hs. simpl in Hs. eapply lstrip_head. exact Hs.
Qed.

Lemma strip_last (s : pystr) (i : pystr) (c : N) :
  strip s = (i ++ [c])%list -> py_isspace c = false.
Proof.
  unfold strip, rstrip. intros H.
  apply (f_equal (@rev N)) in H. rewrite rev_involutive, rev_app_distr in H.
  simpl in H. eapply lstrip_head. exact H.
Qed.

(** Trimming twice is trimming once. *)
Lemma lstrip_fixed (s : pystr) :
  (forall c r, s = c :: r -> py_isspace c = false) -> lstrip s = s.
Proof.
  destruct s as [|c r]; simpl; [reflexivity|].
  intros H. rewrite (H c r eq_refl). reflexivity.
Qed.

Lemma strip_idempotent (s : pystr) : strip (strip s) = strip s.
Proof.
  assert (lstrip (strip s) = strip s) as Hl.
  { apply lstrip_fixed. intros c r. apply strip_first. }
  unfold strip at 1. rewrite Hl. unfold rstrip.
  assert (lstrip (rev (strip s)) = rev (strip s)) as Hr.
  { apply lstrip_fixed. intros c r Hrev.
    apply (strip_last s (rev r)).
    apply (f_equal (@rev N)) in Hrev. rewrite rev_involutive in Hrev.
    simpl in Hrev. exact Hrev. }
  rewrite Hr. apply rev_involutive.
Qed.

(* ===================================================================== *)
(** ** The library calls of a run *)
(* ===================================================================== *)

(** The trace of the [try] body of the alignment tool, whatever its end. *)
Lemma aligned_trace (E : Align.env) (a : Align.args) (t dev : pystr)
    (tr : list event) (c : control unit) :
  Align.aligned E a t dev = (tr, c) ->
  tr = [ELoadAlignModel (Align.language a) dev]
  \/ tr = [ELoadAlignModel (Align.language a) dev;
           ELoadAudio (Align.audio_path a)]
  \/ exists mm audio q,
       Align.load_align_model E (Align.language a) dev = Ok mm
       /\ Align.load_audio E (Align.audio_path a) = Ok audio
       /\ int_truediv (Z.of_N (nd_len audio)) 16000 = Ok q
       /\ (tr = [ELoadAlignModel (Align.language a) dev;
                 ELoadAudio (Align.audio_path a);
                 EAlign (one_segment t q) (fst mm) (snd mm) audio dev]
           \/ exists words,
                tr = [ELoadAlignModel (Align.language a) dev;
                      ELoadAudio (Align.audio_path a);
                      EAlign (one_segment t q) (fst mm) (snd mm) audio dev;
                      EPrint Stdout (align_output a q words)]).
Proof.
  unfold Align.aligned, one_segment, align_output.
  destruct (Align.load_align_model E (Align.language a) dev) as [mm|e] eqn:Hm.
  2:{ cbn. intros H; inversion H; auto. }
  cbn.
  destruct (Align.load_audio E (Align.audio_path a)) as [audio|e] eqn:Ha.
  2:{ cbn. intros H; inversion H; auto. }
  cbn.
  destruct (int_truediv (Z.of_N (nd_len audio)) 16000) as [q|e] eqn:Hq.
  2:{ cbn. intros H; inversion H; auto. }
  cbn.
  match goal with |- context [Align.align E ?s ?m ?md ?au ?d] =>
    destruct (Align.align E s m md au d) as [res|e] eqn:Hr end.
  2:{ cbn. intros H; inversion H. right; right.
      exists mm, audio, q. auto 6. }
  cbn.
  destruct (Align.extract_words res) as [words|e] eqn:Hw.
  2:{ cbn. intros H; inversion H. right; right.
      exists mm, audio, q. auto 6. }
  cbn. intros H; inversion H. right; right.
  exists mm, audio, q. repeat split; try assumption. right. eauto.
Qed.

(** The trace of the second [try] body of the transcription tool. *)
Lemma transcribed_trace (E : Whisper.env) (a : Whisper.args)
    (tr : list event) (c : control unit) :
  Whisper.transcribed E a = (tr, c) ->
  tr = [ELoadModel (Whisper.model a) (Whisper.device a)]
  \/ exists m,
       Whisper.load_model E (Whisper.model a) (Whisper.device a) = Ok m
       /\ (tr = [ELoadModel (Whisper.model a) (Whisper.device a);
                 ETranscribe m (Whisper.audio a) (Whisper.language a)]
           \/ exists doc,
                tr = [ELoadModel (Whisper.model a) (Whisper.device a);
                      ETranscribe m (Whisper.audio a) (Whisper.language a);
                      EPrint Stdout doc]).
Proof.
  unfold Whisper.transcribed.
  destruct (Whisper.load_model E (Whisper.model a) (Whisper.device a))
    as [m|e] eqn:Hm.
  2:{ cbn. intros H; inversion H; auto. }
  cbn.
  destruct (Whisper.transcribe E m (Whisper.audio a) (Whisper.language a))
    as [res|e] eqn:Hr.
  2:{ cbn. intros H; inversion H. right. exists m. auto. }
  cbn.
  destruct (Whisper.extract_words res) as [words|e] eqn:Hw.
  2:{ cbn. intros H; inversion H. right. exists m. auto. }
  cbn.
  destruct (Whisper.build_output a res words) as [out|e] eqn:Ho.
  2:{ cbn. intros H; inversion H. right. exists m. auto. }
  cbn. intros H; inversion H. right. exists m. split; [reflexivity|].
  right. eauto.
Qed.

Lemma library_calls_app (tr tr' : list event) :
  library_calls (tr ++ tr') = (library_calls tr ++ library_calls tr')%list.
Proof. apply filter_app. Qed.

(** The library calls of any run of the alignment tool: none, or a prefix
    of the three calls of the [try] body, made with the arguments of the
    command line, the resolved device, the stripped transcript and the
    objects the earlier calls returned. *)
Lemma align_calls_shape (E : Align.env) :
  library_calls (trace (run (Align.main E))) = []
  \/ exists a contents,
       reaches_imports E a contents
       /\ Align.import_whisperx_torch E = None
       /\ (library_calls (trace (run (Align.main E)))
           = [ELoadAlignModel (Align.language a) (align_device E a)]
           \/ library_calls (trace (run (Align.main E)))
              = [ELoadAlignModel (Align.language a) (align_device E a);
                 ELoadAudio (Align.audio_path a)]
           \/ exists mm audio q,
                Align.load_align_model E (Align.language a) (align_device E a)
                = Ok mm
                /\ Align.load_audio E (Align.audio_path a) = Ok audio
                /\ int_truediv (Z.of_N (nd_len audio)) 16000 = Ok q
                /\ library_calls (trace (run (Align.main E)))
                   = [ELoadAlignModel (Align.language a) (align_device E a);
                      ELoadAudio (Align.audio_path a);
                      EAlign (one_segment (strip contents) q) (fst mm) (snd mm)
                        audio (align_device E a)]).
Proof.
  align_cases E; try (left; reflexivity); right;
    exists a, contents; (split; [assumption|]); (split; [assumption|]);
    cbn [trace exited];
    match goal with H : Align.aligned _ _ _ _ = _ |- _ =>
      destruct (aligned_trace _ _ _ _ H)
        as [->|[->|(mm & audio & q & Km & Ka & Kq & [->|[words ->]])]] end;
    try rewrite library_calls_app;
    try (left; reflexivity);
    try (right; left; reflexivity);
    right; right; exists mm, audio, q; repeat split; assumption || reflexivity.
Qed.

(** The library calls of any run of the transcription tool. *)
Lemma whisper_calls_shape (E : Whisper.env) :
  library_calls (trace (run (Whisper.main E))) = []
  \/ exists a,
       Whisper.argv E = Namespace a
       /\ Whisper.import_whisper E = None
       /\ (library_calls (trace (run (Whisper.main E)))
           = [ELoadModel (Whisper.model a) (Whisper.device a)]
           \/ exists m,
                Whisper.load_model E (Whisper.model a) (Whisper.device a) = Ok m
                /\ library_calls (trace (run (Whisper.main E)))
                   = [ELoadModel (Whisper.model a) (Whisper.device a);
                      ETranscribe m (Whisper.audio a) (Whisper.language a)]).
Proof.
  whisper_cases E; try (left; reflexivity); right;
    exists a; (split; [assumption|]); (split; [assumption|]);
    cbn [trace exited];
    match goal with H : Whisper.transcribed _ _ = _ |- _ =>
      destruct (transcribed_trace _ _ H)
        as [->|(m & Km & [->|[doc ->]])] end;
    try rewrite library_calls_app;
    try (left; reflexivity);
    right; exists m; split; assumption || reflexivity.
Qed.

(* ===================================================================== *)
(** ** What each way of failing looks like to the caller *)
(* ===================================================================== *)

(** X1: a missing file is reported by name, and the audio file is looked
    for first.  When the audio path does not exist the one thing the run
    does is print [Audio file not found: <path>], whatever else is wrong;
    when it exists and the transcript path does not, the one thing it does
    is print [Text file not found: <path>].  Both end with status 1. *)
Theorem missing_file_is_named :
  (forall E a,
      Align.argv E = Namespace a ->
      Align.path_exists E (Align.audio_path a) = false ->
      run (Align.main E)
      = exited [EPrint Stderr
                  (PDict [(lit "error",
                           PStr (lit "Audio file not found: "
                                 ++ Align.audio_path a))])] 1)
  /\ (forall E a,
      Align.argv E = Namespace a ->
      Align.path_exists E (Align.audio_path a) = true ->
      Align.path_exists E (Align.text_path a) = false ->
      run (Align.main E)
      = exited [EPrint Stderr
                  (PDict [(lit "error",
                           PStr (lit "Text file not found: "
                                 ++ Align.text_path a))])] 1).
Proof.
  split; intros E a Hargv; intros; align_cases E; same_namespace;
    try congruence; reflexivity.
Qed.

Lemma missing_file_is_named_witness :
  run (Align.main Cases.align_no_text)
  = exited [EPrint Stderr
              (PDict [(lit "error", PStr (lit "Text file not found: t.txt"))])] 1.
Proof.
  apply (proj2 missing_file_is_named Cases.align_no_text
           (Align.with_defaults (lit "a.wav") (lit "t.txt")));
    reflexivity.
Defined.

(** X2: what no handler catches ends the process with a traceback and
    status 1, and no JSON document on either stream.  In the alignment
    tool that is an exception raised while the transcript is read, and an
    exception other than [ImportError] raised by the imports; in the
    transcription tool the latter.  No library call has been made. *)
Theorem uncaught_exception_leaves_no_json :
  (forall E a e,
      Align.argv E = Namespace a ->
      Align.path_exists E (Align.audio_path a) = true ->
      Align.path_exists E (Align.text_path a) = true ->
      Align.read_text E (Align.text_path a) = Err e ->
      run (Align.main E) = crashed e)
  /\ (forall E a contents e,
      reaches_imports E a contents ->
      Align.import_whisperx_torch E = Some e ->
      exc_is_import_error e = false ->
      run (Align.main E) = crashed e)
  /\ (forall E a e,
      Whisper.argv E = Namespace a ->
      Whisper.import_whisper E = Some e ->
      exc_is_import_error e = false ->
      run (Whisper.main E) = crashed e)
  /\ (forall e,
      documents (trace (crashed e)) = []
      /\ library_calls (trace (crashed e)) = []
      /\ exit_code (crashed e) = 1%Z).
Proof.
  split; [|split; [|split]].
  - intros E a e Hargv Ha Ht Hr. align_cases E; same_namespace;
      try congruence; try (replace e0 with e by congruence; reflexivity).
  - intros E a contents e Hreach Hi Hie. align_cases E; same_namespace;
      try congruence; try (replace e0 with e by congruence; reflexivity).
  - intros E a e Hargv Hi Hie. whisper_cases E; same_namespace;
      try congruence; try (replace e0 with e by congruence; reflexivity).
  - intros e. repeat split.
Qed.

Lemma uncaught_exception_leaves_no_json_witness :
  run (Align.main (set_read_text Samples.align_ok
                     (fun _ => Err Samples.undecodable)))
  = crashed Samples.undecodable
  /\ run (Align.main Cases.align_broken_import) = crashed Cases.broken_library
  /\ run (Whisper.main Cases.whisper_broken_import)
     = crashed Cases.broken_library.
Proof.
  split; [|split].
  - apply (proj1 uncaught_exception_leaves_no_json
             (set_read_text Samples.align_ok (fun _ => Err Samples.undecodable))
             (Align.with_defaults (lit "a.wav") (lit "t.txt")));
      reflexivity.
  - apply (proj1 (proj2 uncaught_exception_leaves_no_json)
             Cases.align_broken_import
             (Align.with_defaults (lit "a.wav") (lit "t.txt"))
             (lit " hello world" ++ [10%N])%list).
    + unfold reaches_imports. repeat split; try reflexivity.
      vm_compute. discriminate.
    + reflexivity.
    + reflexivity.
  - apply (proj1 (proj2 (proj2 uncaught_exception_leaves_no_json))
             Cases.whisper_broken_import
             (Whisper.with_defaults (lit "a.wav")));
      reflexivity.
Defined.

(** X3: a missing dependency is reported before any library call.  The
    alignment tool puts the message of the [ImportError] into its error
    text and gives no [type]; the transcription tool prints one fixed text
    that does not depend on the exception. *)
Theorem missing_dependency_message :
  (forall E a contents e,
      reaches_imports E a contents ->
      Align.import_whisperx_torch E = Some e ->
      exc_is_import_error e = true ->
      run (Align.main E)
      = exited [EPrint Stderr
                  (PDict [(lit "error",
                           PStr (lit "Missing dependency: " ++ exc_msg e
                                 ++ lit ". Install with: pip install whisperx torch"))])]
          1)
  /\ (forall E a e,
      Whisper.argv E = Namespace a ->
      Whisper.import_whisper E = Some e ->
      exc_is_import_error e = true ->
      run (Whisper.main E)
      = exited [EPrint Stdout
                  (PDict [(lit "error",
                           PStr (lit "openai-whisper not installed. Run: pip install openai-whisper"))])]
          1).
Proof.
  split.
  - intros E a contents e Hreach Hi Hie. align_cases E; same_namespace;
      try congruence; try (replace e0 with e by congruence; reflexivity).
  - intros E a e Hargv Hi Hie. whisper_cases E; same_namespace;
      try congruence.
    reflexivity.
Qed.

Lemma missing_dependency_message_witness :
  run (Align.main Cases.align_missing_import)
  = exited [EPrint Stderr
              (PDict [(lit "error",
                       PStr (lit "Missing dependency: No module named 'whisperx'. Install with: pip install whisperx torch"))])]
      1
  /\ run (Whisper.main Samples.whisper_not_installed)
     = exited [EPrint Stdout
                 (PDict [(lit "error",
                          PStr (lit "openai-whisper not installed. Run: pip install openai-whisper"))])]
         1.
Proof.
  split.
  - apply (proj1 missing_dependency_message Cases.align_missing_import
             (Align.with_defaults (lit "a.wav") (lit "t.txt"))
             (lit " hello world" ++ [10%N])%list
             (Samples.no_module "whisperx")).
    + unfold reaches_imports. repeat split; try reflexivity.
      vm_compute. discriminate.
    + reflexivity.
    + reflexivity.
  - apply (proj2 missing_dependency_message Samples.whisper_not_installed
             (Whisper.with_defaults (lit "a.wav"))
             (Samples.no_module "whisper"));
      reflexivity.
Defined.

Lemma align_failed_run (E : Align.env) a contents tr e :
  reaches_imports E a contents ->
  Align.import_whisperx_torch E = None ->
  Align.aligned E a (strip contents) (align_device E a) = (tr, Raised e) ->
  run (Align.main E)
  = exited (tr ++ [EPrint Stderr
                     (PDict [(lit "error", PStr (exc_msg e));
                             (lit "type", PStr (exc_type e))])]) 1.
Proof.
  intros Hreach Hi Hb. destruct Hreach as (Hargv & Ha & Ht & Hr & Hs).
  align_cases E; same_namespace; try congruence.
  assert (contents0 = contents) by congruence; subst contents0.
  assert (tr0 = tr /\ e0 = e) as [-> ->] by (split; congruence).
  reflexivity.
Qed.

Lemma whisper_failed_run (E : Whisper.env) a tr e :
  Whisper.argv E = Namespace a ->
  Whisper.import_whisper E = None ->
  Whisper.transcribed E a = (tr, Raised e) ->
  run (Whisper.main E)
  = exited (tr ++ [EPrint Stdout (PDict [(lit "error", PStr (exc_msg e))])]) 1.
Proof.
  intros Hargv Hi Hb.
  whisper_cases E; same_namespace; try congruence.
  assert (tr0 = tr /\ e0 = e) as [-> ->] by (split; congruence).
  reflexivity.
Qed.

(** X4: in the alignment tool a library call that raises is the last call
    of the run: after a failed model load the audio is not decoded, after
    a failed decode nothing is aligned, and nothing is tried twice.  The
    exception is reported on stderr with its message as [error] and its
    class name as [type], and the status is 1. *)
Theorem failing_call_ends_alignment :
  (forall E a contents e,
      reaches_imports E a contents ->
      Align.import_whisperx_torch E = None ->
      Align.load_align_model E (Align.language a) (align_device E a) = Err e ->
      run (Align.main E)
      = exited [ELoadAlignModel (Align.language a) (align_device E a);
                EPrint Stderr (PDict [(lit "error", PStr (exc_msg e));
                                      (lit "type", PStr (exc_type e))])] 1)
  /\ (forall E a contents mm e,
      reaches_imports E a contents ->
      Align.import_whisperx_torch E = None ->
      Align.load_align_model E (Align.language a) (align_device E a) = Ok mm ->
      Align.load_audio E (Align.audio_path a) = Err e ->
      run (Align.main E)
      = exited [ELoadAlignModel (Align.language a) (align_device E a);
                ELoadAudio (Align.audio_path a);
                EPrint Stderr (PDict [(lit "error", PStr (exc_msg e));
                                      (lit "type", PStr (exc_type e))])] 1)
  /\ (forall E a contents mm audio q e,
      reaches_imports E a contents ->
      Align.import_whisperx_torch E = None ->
      Align.load_align_model E (Align.language a) (align_device E a) = Ok mm ->
      Align.load_audio E (Align.audio_path a) = Ok audio ->
      int_truediv (Z.of_N (nd_len audio)) 16000 = Ok q ->
      Align.align E (one_segment (strip contents) q) (fst mm) (snd mm) audio
        (align_device E a) = Err e ->
      run (Align.main E)
      = exited [ELoadAlignModel (Align.language a) (align_device E a);
                ELoadAudio (Align.audio_path a);
                EAlign (one_segment (strip contents) q) (fst mm) (snd mm) audio
                  (align_device E a);
                EPrint Stderr (PDict [(lit "error", PStr (exc_msg e));
                                      (lit "type", PStr (exc_type e))])] 1).
Proof.
  split; [|split].
  - intros E a contents e Hreach Hi Hm.
    rewrite (align_failed_run Hreach Hi (model_load_failure _ _ _ _ Hm)).
    reflexivity.
  - intros E a contents mm e Hreach Hi Hm Ha.
    rewrite (align_failed_run Hreach Hi (audio_load_failure _ _ _ _ Hm Ha)).
    reflexivity.
  - intros E a contents mm audio q e Hreach Hi Hm Ha Hq Hr.
    rewrite (align_failed_run Hreach Hi
               (alignment_failure _ _ _ _ Hm Ha Hq Hr)).
    reflexivity.
Qed.

Lemma failing_call_ends_alignment_witness :
  run (Align.main Samples.align_no_model)
  = exited [ELoadAlignModel (lit "yi") (lit "cpu");
            EPrint Stderr
              (PDict [(lit "error",
                       PStr (lit "No default align-model for language: yi"));
                      (lit "type", PStr (lit "ValueError"))])] 1.
Proof.
  apply (proj1 failing_call_ends_alignment Samples.align_no_model
           (Align.with_defaults (lit "a.wav") (lit "t.txt"))
           (lit " hello world" ++ [10%N])%list
           Samples.no_align_model).
  - unfold reaches_imports. repeat split; try reflexivity.
    vm_compute. discriminate.
  - reflexivity.
  - reflexivity.
Defined.

(** X5: in the transcription tool a library call that raises is the last
    call of the run, and the exception is reported on stdout as an object
    with the one key [error], holding its message; the class of the
    exception is not reported.  The status is 1. *)
Theorem failing_call_ends_transcription :
  (forall E a e,
      Whisper.argv E = Namespace a ->
      Whisper.import_whisper E = None ->
      Whisper.load_model E (Whisper.model a) (Whisper.device a) = Err e ->
      run (Whisper.main E)
      = exited [ELoadModel (Whisper.model a) (Whisper.device a);
                EPrint Stdout (PDict [(lit "error", PStr (exc_msg e))])] 1)
  /\ (forall E a m e,
      Whisper.argv E = Namespace a ->
      Whisper.import_whisper E = None ->
      Whisper.load_model E (Whisper.model a) (Whisper.device a) = Ok m ->
      Whisper.transcribe E m (Whisper.audio a) (Whisper.language a) = Err e ->
      run (Whisper.main E)
      = exited [ELoadModel (Whisper.model a) (Whisper.device a);
                ETranscribe m (Whisper.audio a) (Whisper.language a);
                EPrint Stdout (PDict [(lit "error", PStr (exc_msg e))])] 1).
Proof.
  split.
  - intros E a e Hargv Hi Hm.
    erewrite whisper_failed_run;
      [ | eassumption | assumption
        | apply whisper_model_load_failure; eassumption ].
    reflexivity.
  - intros E a m e Hargv Hi Hm Hr.
    erewrite whisper_failed_run;
      [ | eassumption | assumption
        | apply transcription_failure; eassumption ].
    reflexivity.
Qed.

Lemma failing_call_ends_transcription_witness :
  run (Whisper.main Cases.whisper_no_decoder)
  = exited [ELoadModel (lit "base") (lit "cpu");
            ETranscribe (Handle 1) (lit "a.wav") (lit "yi");
            EPrint Stdout
              (PDict [(lit "error", PStr (lit "Failed to load audio"))])] 1.
Proof.
  apply (proj2 failing_call_ends_transcription Cases.whisper_no_decoder
           (Whisper.with_defaults (lit "a.wav")) (Handle 1) Cases.no_decoder);
    reflexivity.
Defined.

(* ===================================================================== *)
(** ** Options, devices and the order of calls *)
(* ===================================================================== *)

Lemma device_argument_is_call (ev : event) (d : pystr) :
  device_argument ev = Some d -> is_call ev = true.
Proof. destruct ev; simpl; intros H; try discriminate; reflexivity. Qed.

(** X6: every library call that takes a device gets the same one.  In the
    alignment tool it is the requested device word for word, unless that
    is [auto]; then it is [cuda] when torch reports an accelerator and
    [cpu] when it does not.  In the transcription tool it is the requested
    device word for word.  Neither tool checks the word. *)
Theorem device_is_threaded :
  (forall E ev d,
      In ev (trace (run (Align.main E))) ->
      device_argument ev = Some d ->
      exists a,
        Align.argv E = Namespace a
        /\ d = if pystr_eqb (Align.device a) (lit "auto")
               then (if Align.cuda_is_available E then lit "cuda" else lit "cpu")
               else Align.device a)
  /\ (forall E ev d,
      In ev (trace (run (Whisper.main E))) ->
      device_argument ev = Some d ->
      exists a, Whisper.argv E = Namespace a /\ d = Whisper.device a).
Proof.
  split.
  - intros E ev d Hin Hd.
    assert (In ev (library_calls (trace (run (Align.main E))))) as Hc.
    { apply filter_In. split; [exact Hin|].
      eapply device_argument_is_call; exact Hd. }
    destruct (align_calls_shape E)
      as [H0|(a & contents & Hreach & _ & Hs)].
    { rewrite H0 in Hc. destruct Hc. }
    exists a. split; [apply Hreach|].
    change (d = align_device E a).
    destruct Hs as [Hs|[Hs|(mm & audio & q & _ & _ & _ & Hs)]];
      rewrite Hs in Hc; simpl in Hc;
      repeat (destruct Hc as [Hc|Hc]; [subst ev; simpl in Hd; congruence|]);
      destruct Hc.
  - intros E ev d Hin Hd.
    assert (In ev (library_calls (trace (run (Whisper.main E))))) as Hc.
    { apply filter_In. split; [exact Hin|].
      eapply device_argument_is_call; exact Hd. }
    destruct (whisper_calls_shape E) as [H0|(a & Hargv & _ & Hs)].
    { rewrite H0 in Hc. destruct Hc. }
    exists a. split; [exact Hargv|].
    destruct Hs as [Hs|(m & _ & Hs)];
      rewrite Hs in Hc; simpl in Hc;
      repeat (destruct Hc as [Hc|Hc]; [subst ev; simpl in Hd; congruence|]);
      destruct Hc.
Qed.

Lemma device_is_threaded_witness :
  exists a,
    Align.argv Samples.align_ok = Namespace a
    /\ lit "cpu"
       = if pystr_eqb (Align.device a) (lit "auto")
         then (if Align.cuda_is_available Samples.align_ok
               then lit "cuda" else lit "cpu")
         else Align.device a.
Proof.
  apply (proj1 device_is_threaded Samples.align_ok
           (ELoadAlignModel (lit "yi") (lit "cpu")) (lit "cpu")).
  - left. reflexivity.
  - reflexivity.
Defined.

Lemma resolve_device_explicit (cuda : bool) (requested : pystr) :
  requested <> lit "auto" -> Align.resolve_device cuda requested = requested.
Proof.
  intros H. unfold Align.resolve_device.
  apply pystr_eqb_neq in H. rewrite H. reflexivity.
Qed.

(** X7: three options are read and never used.  The run of the alignment
    tool does not depend on [--model], nor on what torch reports about an
    accelerator once a device other than [auto] is requested; the run of
    the transcription tool does not depend on [--output]. *)
Theorem unused_options_change_nothing :
  (forall E a m,
      Align.argv E = Namespace a ->
      run (Align.main (set_argv E (Namespace (set_model a m))))
      = run (Align.main E))
  /\ (forall E a b,
      Align.argv E = Namespace a ->
      Align.device a <> lit "auto" ->
      run (Align.main (set_cuda E b)) = run (Align.main E))
  /\ (forall E a o,
      Whisper.argv E = Namespace a ->
      run (Whisper.main (whisper_set_argv E (Namespace (set_output a o))))
      = run (Whisper.main E)).
Proof.
  split; [|split].
  - intros E a m Hargv. unfold Align.main. rewrite Hargv. reflexivity.
  - intros E a b Hargv Hdev. unfold Align.main, set_cuda.
    cbn [Align.argv Align.cuda_is_available]. rewrite Hargv.
    cbn [parse_args ret bind].
    rewrite !(resolve_device_explicit _ Hdev). reflexivity.
  - intros E a o Hargv. unfold Whisper.main. rewrite Hargv. reflexivity.
Qed.

Lemma unused_options_change_nothing_witness :
  run (Align.main
         (set_argv Samples.align_ok
            (Namespace (set_model (Align.with_defaults (lit "a.wav") (lit "t.txt"))
                          (lit "tiny")))))
  = run (Align.main Samples.align_ok)
  /\ run (Whisper.main
            (whisper_set_argv Samples.whisper_ok
               (Namespace (set_output (Whisper.with_defaults (lit "a.wav"))
                             (lit "srt")))))
     = run (Whisper.main Samples.whisper_ok).
Proof.
  split.
  - apply (proj1 unused_options_change_nothing Samples.align_ok
             (Align.with_defaults (lit "a.wav") (lit "t.txt")) (lit "tiny")).
    reflexivity.
  - apply (proj2 (proj2 unused_options_change_nothing) Samples.whisper_ok
             (Whisper.with_defaults (lit "a.wav")) (lit "srt")).
    reflexivity.
Defined.


(* ===================================================================== *)
(** ** Streams and exit statuses *)
(* ===================================================================== *)

(** X9: whatever JSON document the alignment tool prints is the last
    thing it does and the only document of the run.  On stdout it is the
    success object and the status is 0; on stderr it is an error object
    and the status is 1. *)
Theorem alignment_streams (E : Align.env) (s : stream) (doc : pyval) :
  In (EPrint s doc) (trace (run (Align.main E))) ->
  (exists tr,
      trace (run (Align.main E)) = (tr ++ [EPrint s doc])%list
      /\ documents tr = [])
  /\ ((s = Stdout /\ align_success_doc doc = true
       /\ exit_code (run (Align.main E)) = 0%Z)
      \/ (s = Stderr /\ is_error_doc doc = true
          /\ exit_code (run (Align.main E)) = 1%Z)).
Proof.
  align_cases E; cbn [trace exited crashed exit_code]; intros Hin;
    try (destruct Hin as [Hin|[]]; try discriminate Hin;
         inversion Hin; subst s doc;
         (split; [exists []; split; reflexivity | right; repeat split])).
  - apply in_app_or in Hin. destruct Hin as [Hin|[Hin|[]]].
    + exfalso. eapply not_printed; [|exact Hin].
      eapply aligned_raised_silent; eassumption.
    + inversion Hin; subst s doc. split.
      * exists tr. split; [reflexivity|].
        eapply aligned_raised_silent; eassumption.
      * right. repeat split.
  - match goal with H : Align.aligned _ _ _ _ = _ |- _ =>
      destruct (aligned_normal_inv _ _ _ _ H)
        as (mm & audio & q & res & words & _ & _ & _ & _ & _ & ->) end.
    cbn in Hin.
    destruct Hin as [Hin|[Hin|[Hin|[Hin|[]]]]]; try discriminate Hin.
    inversion Hin; subst s doc. split.
    + eexists [_; _; _]. split; reflexivity.
    + left. repeat split.
Qed.

Lemma alignment_streams_witness :
  (exists tr,
      trace (run (Align.main Samples.align_no_model))
      = (tr ++ [EPrint Stderr (align_failure_doc Samples.no_align_model)])%list
      /\ documents tr = [])
  /\ ((Stderr = Stdout
       /\ align_success_doc (align_failure_doc Samples.no_align_model) = true
       /\ exit_code (run (Align.main Samples.align_no_model)) = 0%Z)
      \/ (Stderr = Stderr
          /\ is_error_doc (align_failure_doc Samples.no_align_model) = true
          /\ exit_code (run (Align.main Samples.align_no_model)) = 1%Z)).
Proof.
  apply (@alignment_streams Samples.align_no_model Stderr
           (align_failure_doc Samples.no_align_model)).
  right; left. reflexivity.
Defined.

(** X10: the transcription tool prints every JSON document on stdout,
    never on stderr.  The document is the last thing the run does and its
    only document: the success object with status 0, or an error object
    with status 1. *)
Theorem transcription_streams (E : Whisper.env) (s : stream) (doc : pyval) :
  In (EPrint s doc) (trace (run (Whisper.main E))) ->
  s = Stdout
  /\ (exists tr,
         trace (run (Whisper.main E)) = (tr ++ [EPrint Stdout doc])%list
         /\ documents tr = [])
  /\ ((whisper_success_doc doc = true
       /\ exit_code (run (Whisper.main E)) = 0%Z)
      \/ (is_error_doc doc = true
          /\ exit_code (run (Whisper.main E)) = 1%Z)).
Proof.
  whisper_cases E; cbn [trace exited crashed exit_code]; intros Hin;
    try (destruct Hin as [Hin|[]]; try discriminate Hin;
         inversion Hin; subst s doc;
         (split; [reflexivity|]);
         (split; [exists []; split; reflexivity | right; repeat split])).
  - apply in_app_or in Hin. destruct Hin as [Hin|[Hin|[]]].
    + exfalso. eapply not_printed; [|exact Hin].
      eapply transcribed_raised_silent; eassumption.
    + inversion Hin; subst s doc. split; [reflexivity|]. split.
      * exists tr. split; [reflexivity|].
        eapply transcribed_raised_silent; eassumption.
      * right. repeat split.
  - match goal with H : Whisper.transcribed _ _ = _ |- _ =>
      destruct (transcribed_normal_inv _ _ H)
        as (m & d & words & _ & _ & _ & ->) end.
    cbn in Hin.
    destruct Hin as [Hin|[Hin|[Hin|[]]]]; try discriminate Hin.
    inversion Hin; subst s doc. split; [reflexivity|]. split.
    + eexists [_; _]. split; reflexivity.
    + left. repeat split.
Qed.

Lemma transcription_streams_witness :
  Stdout = Stdout
  /\ (exists tr,
         trace (run (Whisper.main Samples.whisper_not_installed))
         = (tr ++ [EPrint Stdout not_installed_doc])%list
         /\ documents tr = [])
  /\ ((whisper_success_doc not_installed_doc = true
       /\ exit_code (run (Whisper.main Samples.whisper_not_installed)) = 0%Z)
      \/ (is_error_doc not_installed_doc = true
          /\ exit_code (run (Whisper.main Samples.whisper_not_installed)) = 1%Z)).
Proof.
  apply (@transcription_streams Samples.whisper_not_installed Stdout
           not_installed_doc).
  left. reflexivity.
Defined.

(** X11: the exit status of either tool is 0, 1 or 2, and it is 2 exactly
    when argparse rejects the command line; the scripts themselves only
    ever exit with 1. *)
Theorem exit_statuses :
  (forall E,
      (exit_code (run (Align.main E)) = 0%Z
       \/ exit_code (run (Align.main E)) = 1%Z
       \/ exit_code (run (Align.main E)) = 2%Z)
      /\ (exit_code (run (Align.main E)) = 2%Z <-> Align.argv E = ParserError))
  /\ (forall E,
      (exit_code (run (Whisper.main E)) = 0%Z
       \/ exit_code (run (Whisper.main E)) = 1%Z
       \/ exit_code (run (Whisper.main E)) = 2%Z)
      /\ (exit_code (run (Whisper.main E)) = 2%Z
          <-> Whisper.argv E = ParserError)).
Proof.
  split.
  - intros E. align_cases E; same_namespace; cbn; split; auto;
      split; intros; congruence.
  - intros E. whisper_cases E; same_namespace; cbn; split; auto;
      split; intros; congruence.
Qed.

(* ===================================================================== *)
(** ** The transcript the aligner is given *)
(* ===================================================================== *)

Lemma aligned_trace_nonempty (E : Align.env) a t dev tr c :
  Align.aligned E a t dev = (tr, c) -> tr <> [].
Proof.
  intros H.
  destruct (aligned_trace _ _ _ _ H)
    as [->|[->|(mm & audio & q & _ & _ & _ & [->|[words ->]])]];
    discriminate.
Qed.

(** X12: given both files and a transcript that can be read, the run is
    the report [Transcript is empty] exactly when the file holds nothing
    but whitespace (an empty file included); a single character that is
    not whitespace lets the run go on to the imports. *)
Theorem empty_transcript_iff_blank (E : Align.env) (a : Align.args)
    (contents : pystr) :
  Align.argv E = Namespace a ->
  Align.path_exists E (Align.audio_path a) = true ->
  Align.path_exists E (Align.text_path a) = true ->
  Align.read_text E (Align.text_path a) = Ok contents ->
  (run (Align.main E)
   = exited [EPrint Stderr
               (PDict [(lit "error", PStr (lit "Transcript is empty"))])] 1
   <-> forallb py_isspace contents = true).
Proof.
  intros Hargv Ha Ht Hr. rewrite <- strip_nil.
  align_cases E; same_namespace; try congruence;
    try (assert (contents0 = contents) by congruence; subst contents0).
  - split; [intros _; assumption | reflexivity].
  - split; [|intros; contradiction].
    unfold exited, Align.error_doc. intros K.
    inversion K as [Kd]; vm_compute in Kd; discriminate Kd.
  - split; [|intros; contradiction].
    unfold exited, crashed. intros K. inversion K.
  - split; [|intros; contradiction].
    unfold exited. intros K. exfalso.
    match goal with H : Align.aligned _ _ _ _ = _ |- _ =>
      apply aligned_trace_nonempty in H end.
    destruct tr as [|x [|y tr']]; [contradiction | |];
      inversion K.
  - split; [|intros; contradiction].
    unfold exited. intros K. inversion K.
Qed.

Lemma empty_transcript_iff_blank_witness :
  run (Align.main (set_read_text Samples.align_ok
                     (fun _ => Ok [32; 9; 10; 160; 8195]%N)))
  = exited [EPrint Stderr
              (PDict [(lit "error", PStr (lit "Transcript is empty"))])] 1
  <-> forallb py_isspace [32; 9; 10; 160; 8195]%N = true.
Proof.
  apply (@empty_transcript_iff_blank
           (set_read_text Samples.align_ok
              (fun _ => Ok [32; 9; 10; 160; 8195]%N))
           (Align.with_defaults (lit "a.wav") (lit "t.txt")));
    reflexivity.
Defined.

(** X13: whenever the aligner is called, successfully or not, it is given
    one segment whose text is not empty and neither starts nor ends with
    whitespace, whose start is 0.0 and whose end is the length of the very
    audio array it is given, divided by 16000. *)
Theorem aligner_gets_trimmed_text (E : Align.env) (segs : pyval)
    (m md : handle) (audio : ndarray) (dev : pystr) :
  In (EAlign segs m md audio dev) (trace (run (Align.main E))) ->
  exists t q,
    segs = PList [PDict [(lit "text", PStr t);
                         (lit "start", PFloat (S754_zero false));
                         (lit "end", PFloat q)]]
    /\ t <> []
    /\ (forall c r, t = c :: r -> py_isspace c = false)
    /\ (forall i c, t = (i ++ [c])%list -> py_isspace c = false)
    /\ int_truediv (Z.of_N (nd_len audio)) 16000 = Ok q.
Proof.
  intros Hin.
  assert (In (EAlign segs m md audio dev)
             (library_calls (trace (run (Align.main E))))) as Hc.
  { apply filter_In. split; [exact Hin | reflexivity]. }
  destruct (align_calls_shape E)
    as [H0|(a & contents & Hreach & _ & Hs)].
  { rewrite H0 in Hc. destruct Hc. }
  destruct Hreach as (_ & _ & _ & _ & Hne).
  destruct Hs as [Hs|[Hs|(mm & au & q & _ & _ & Hq & Hs)]];
    rewrite Hs in Hc; simpl in Hc;
    repeat (destruct Hc as [Hc|Hc]; [try discriminate Hc|]);
    try contradiction.
  inversion Hc; subst.
  exists (strip contents), q. repeat split; try assumption.
  - intros c r Ht. eapply strip_first; exact Ht.
  - intros i c Ht. eapply strip_last; exact Ht.
Qed.

Lemma aligner_gets_trimmed_text_witness :
  exists t q,
    one_segment (lit "hello world") Samples.f2_0
    = PList [PDict [(lit "text", PStr t);
                    (lit "start", PFloat (S754_zero false));
                    (lit "end", PFloat q)]]
    /\ t <> []
    /\ (forall c r, t = c :: r -> py_isspace c = false)
    /\ (forall i c, t = (i ++ [c])%list -> py_isspace c = false)
    /\ int_truediv (Z.of_N (nd_len {| nd_len := 32000 |})) 16000 = Ok q.
Proof.
  apply (@aligner_gets_trimmed_text Samples.align_ok
           (one_segment (lit "hello world") Samples.f2_0)
           (Handle 1) (Handle 2) {| nd_len := 32000 |} (lit "cpu")).
  right; right; left. reflexivity.
Defined.

(* ===================================================================== *)
(** ** What the payloads carry *)
(* ===================================================================== *)

(** X14: the success object of the transcription tool hands the library's
    [text], [language], [duration] and [segments] through as they are.
    Where the library's result lacks one, the object holds [''], the
    language that was requested, [None] and [[]] in its place. *)
Theorem transcription_passes_result_through (E : Whisper.env) (doc : pyval) :
  In (EPrint Stdout doc) (trace (run (Whisper.main E))) ->
  whisper_success_doc doc = true ->
  exists a m d,
    Whisper.argv E = Namespace a
    /\ Whisper.load_model E (Whisper.model a) (Whisper.device a) = Ok m
    /\ Whisper.transcribe E m (Whisper.audio a) (Whisper.language a) = Ok (PDict d)
    /\ field "text" doc = Some (dict_get d (lit "text") (PStr []))
    /\ field "language" doc
       = Some (dict_get d (lit "language") (PStr (Whisper.language a)))
    /\ field "duration" doc = Some (dict_get d (lit "duration") PNone)
    /\ field "segments" doc = Some (dict_get d (lit "segments") (PList [])).
Proof.
  intros Hin Hdoc.
  destruct (whisper_success_inv E doc Hin Hdoc)
    as (a & m & d & words & Hargv & _ & Hm & Htr & _ & _ & ->).
  exists a, m, d. repeat split; assumption.
Qed.

Lemma transcription_passes_result_through_witness :
  exists a m d,
    Whisper.argv Samples.whisper_ok = Namespace a
    /\ Whisper.load_model Samples.whisper_ok (Whisper.model a) (Whisper.device a)
       = Ok m
    /\ Whisper.transcribe Samples.whisper_ok m (Whisper.audio a)
         (Whisper.language a) = Ok (PDict d)
    /\ field "text"
         (PDict [(lit "text", PStr (lit " hello"));
                 (lit "language", PStr (lit "yi"));
                 (lit "duration", PNone);
                 (lit "segments",
                  PList [PDict [(lit "words",
                                 PList [PDict [(lit "word", PStr (lit " hello"));
                                               (lit "start", PFloat Samples.f2_0);
                                               (lit "end", PFloat Samples.f0_12345)]])]]);
                 (lit "words",
                  PList [PDict [(lit "word", PStr (lit " hello"));
                                (lit "start", PFloat Samples.f2_0);
                                (lit "end", PFloat Samples.f0_12345);
                                (lit "probability", PNone)]])])
       = Some (dict_get d (lit "text") (PStr []))
    /\ Some (PStr (lit "yi"))
       = Some (dict_get d (lit "language") (PStr (Whisper.language a)))
    /\ Some PNone = Some (dict_get d (lit "duration") PNone)
    /\ Some (PList [PDict [(lit "words",
                            PList [PDict [(lit "word", PStr (lit " hello"));
                                          (lit "start", PFloat Samples.f2_0);
                                          (lit "end", PFloat Samples.f0_12345)]])]])
       = Some (dict_get d (lit "segments") (PList [])).
Proof.
  apply (@transcription_passes_result_through Samples.whisper_ok).
  - right; right; left. reflexivity.
  - reflexivity.
Defined.

(** X15: in a successful alignment the [word_count] is the number of word
    items the library returned, summed over its segments, and [language]
    is the language that was requested and that the model was loaded
    for. *)
Theorem word_count_counts_library_words (E : Align.env) (doc : pyval) :
  In (EPrint Stdout doc) (trace (run (Align.main E))) ->
  exists a res segs wss,
    Align.argv E = Namespace a
    /\ In (ELoadAlignModel (Align.language a) (align_device E a))
          (trace (run (Align.main E)))
    /\ (exists segments m md audio dev,
           In (EAlign segments m md audio dev) (trace (run (Align.main E)))
           /\ Align.align E segments m md audio dev = Ok res)
    /\ segments_of res = Ok segs
    /\ Forall2 (fun s ws => words_of s = Ok ws) segs wss
    /\ field "word_count" doc
       = Some (PInt (Z.of_nat (List.length (List.concat wss))))
    /\ field "language" doc = Some (PStr (Align.language a)).
Proof.
  intros Hin.
  destruct (align_success_inv E doc Hin)
    as (a & contents & mm & audio & q & res & words
        & Hreach & _ & _ & _ & _ & Hres & Hw & Hrun & ->).
  apply align_extract_words_ok in Hw.
  destruct Hw as (segs & wss & Hs & Hws & Hrec).
  exists a, res, segs, wss. rewrite Hrun. cbn [trace exited].
  split; [apply Hreach|]. split; [left; reflexivity|]. split.
  { do 5 eexists. split; [right; right; left; reflexivity | exact Hres]. }
  repeat split; try assumption.
  cbn. rewrite (Forall2_length Hrec). reflexivity.
Qed.

Lemma word_count_counts_library_words_witness :
  exists a res segs wss,
    Align.argv Samples.align_ok = Namespace a
    /\ In (ELoadAlignModel (Align.language a) (align_device Samples.align_ok a))
          (trace (run (Align.main Samples.align_ok)))
    /\ (exists segments m md audio dev,
           In (EAlign segments m md audio dev)
              (trace (run (Align.main Samples.align_ok)))
           /\ Align.align Samples.align_ok segments m md audio dev = Ok res)
    /\ segments_of res = Ok segs
    /\ Forall2 (fun s ws => words_of s = Ok ws) segs wss
    /\ field "word_count"
         (align_output (Align.with_defaults (lit "a.wav") (lit "t.txt"))
            Samples.f2_0
            [PDict [(lit "word", PStr (lit "hello"));
                    (lit "start", PFloat Samples.f0_123);
                    (lit "end", PFloat Samples.f0_5);
                    (lit "confidence", PFloat Samples.f0_5)];
             PDict [(lit "word", PStr (lit "world"));
                    (lit "start", PInt 0);
                    (lit "end", PInt 0)]])
       = Some (PInt (Z.of_nat (List.length (List.concat wss))))
    /\ field "language"
         (align_output (Align.with_defaults (lit "a.wav") (lit "t.txt"))
            Samples.f2_0
            [PDict [(lit "word", PStr (lit "hello"));
                    (lit "start", PFloat Samples.f0_123);
                    (lit "end", PFloat Samples.f0_5);
                    (lit "confidence", PFloat Samples.f0_5)];
             PDict [(lit "word", PStr (lit "world"));
                    (lit "start", PInt 0);
                    (lit "end", PInt 0)]])
       = Some (PStr (Align.language a)).
Proof.
  apply (@word_count_counts_library_words Samples.align_ok).
  right; right; right; left. reflexivity.
Defined.

(* ===================================================================== *)
(** ** Flattening: failure and composition *)
(* ===================================================================== *)

Lemma py_round3_not_number (v : pyval) :
  is_number v = false -> py_round3 v = Err (no_round v).
Proof. destruct v; simpl; try discriminate; reflexivity. Qed.

Lemma no_round_is_TypeError (v : pyval) :
  exc_type (no_round v) = lit "TypeError".
Proof. reflexivity. Qed.

(** A record with a timing or a score that is no number makes [round]
    raise. *)
Lemma align_word_record_untimed (d : dict) :
  timed d = false ->
  exists e, Align.word_record (PDict d) = Err e /\ exc_type e = lit "TypeError".
Proof.
  unfold timed. rewrite align_word_record_dict. intros H.
  destruct (is_number (dict_get d (lit "start") (PInt 0))) eqn:Hs.
  2:{ rewrite (py_round3_not_number _ Hs). simpl. eauto. }
  destruct (py_round3_number _ Hs) as [s ->]. simpl.
  destruct (is_number (dict_get d (lit "end") (PInt 0))) eqn:He.
  2:{ rewrite (py_round3_not_number _ He). simpl. eauto. }
  destruct (py_round3_number _ He) as [e ->]. simpl.
  simpl in H. unfold dict_get in H.
  destruct (dict_lookup (lit "score") d) as [score|]; [|discriminate H].
  rewrite (py_round3_not_number _ H). simpl. eauto.
Qed.

Lemma align_each_word_dicts (ds : list dict) : forall acc,
  (forallb timed ds = true /\ exists out, Align.each_word (map PDict ds) acc = Ok out)
  \/ (forallb timed ds = false
      /\ exists e, Align.each_word (map PDict ds) acc = Err e
                   /\ exc_type e = lit "TypeError").
Proof.
  induction ds as [|d ds IH]; intros acc; simpl.
  - left. eauto.
  - destruct (timed d) eqn:Ht; simpl.
    + destruct (align_word_record_total d Ht) as [w ->]. simpl. apply IH.
    + right. split; [reflexivity|].
      destruct (align_word_record_untimed d Ht) as (e & -> & He). simpl. eauto.
Qed.

Lemma omap_as_dict (l : list pyval) (ds : list dict) :
  omap as_dict l = Some ds -> l = map PDict ds.
Proof.
  intros H. apply omap_Forall2 in H.
  induction H as [|x y l l' Hxy _ IH]; simpl; [reflexivity|].
  destruct x; simpl in Hxy; try discriminate. congruence.
Qed.

Lemma align_each_segment_dicts (segs : list pyval) :
  forall (wss : list (list dict)) acc,
  omap segment_words segs = Some wss ->
  (forallb timed (List.concat wss) = true
   /\ exists out, Align.each_segment segs acc = Ok out)
  \/ (forallb timed (List.concat wss) = false
      /\ exists e, Align.each_segment segs acc = Err e
                   /\ exc_type e = lit "TypeError").
Proof.
  induction segs as [|seg rest IH]; intros wss acc; simpl.
  - intros H; inversion H; subst. left. simpl. eauto.
  - destruct (segment_words seg) as [ds|] eqn:Hseg; [|discriminate].
    destruct (omap segment_words rest) as [wss'|] eqn:Hrest; [|discriminate].
    intros H; inversion H; subst wss. clear H.
    unfold segment_words in Hseg.
    destruct seg; simpl in Hseg; try discriminate.
    destruct (dict_get d (lit "words") (PList [])) as [| | | | |l|] eqn:Hl;
      simpl in Hseg; try discriminate.
    apply omap_as_dict in Hseg. subst l.
    cbn [py_get rbind]. rewrite Hl. cbn [py_iter rbind].
    cbn [List.concat]. rewrite forallb_app.
    destruct (align_each_word_dicts ds acc)
      as [(Ht & out & ->)|(Ht & e & -> & He)]; rewrite Ht; cbn [rbind andb].
    + apply IH. reflexivity.
    + right. split; [reflexivity|]. eauto.
Qed.

Lemma align_flatten_untimed (res : pyval) (wss : list (list dict)) :
  nested_words res = Some wss ->
  forallb timed (List.concat wss) = false ->
  exists e, Align.extract_words res = Err e /\ exc_type e = lit "TypeError".
Proof.
  unfold nested_words, Align.extract_words. intros Hn Ht.
  destruct res; simpl in Hn; try discriminate.
  destruct (dict_get d (lit "segments") (PList [])) as [| | | | |l|] eqn:Hl;
    simpl in Hn; try discriminate.
  cbn [py_get rbind]. rewrite Hl. cbn [py_iter rbind].
  destruct (align_each_segment_dicts l [] Hn)
    as [(Ht' & _)|(_ & e & He)]; [congruence | eauto].
Qed.

Lemma flatten_failure (E : Align.env) a t dev mm audio q res e :
  Align.load_align_model E (Align.language a) dev = Ok mm ->
  Align.load_audio E (Align.audio_path a) = Ok audio ->
  int_truediv (Z.of_N (nd_len audio)) 16000 = Ok q ->
  Align.align E (one_segment t q) (fst mm) (snd mm) audio dev = Ok res ->
  Align.extract_words res = Err e ->
  Align.aligned E a t dev =
  ([ELoadAlignModel (Align.language a) dev; ELoadAudio (Align.audio_path a);
    EAlign (one_segment t q) (fst mm) (snd mm) audio dev], Raised e).
Proof.
  intros H1 H2 H3 H4 H5. unfold Align.aligned, one_segment in *.
  rewrite H1. cbn. rewrite H2. cbn. rewrite H3. cbn. rewrite H4. cbn.
  rewrite H5. reflexivity.
Qed.

(** X16: the alignment tool emits all the words or none.  When the
    library's result is well formed but one word record has a timing or a
    score that is no number ([None] for a word that could not be aligned),
    rounding raises: the run prints no word at all, reports a [TypeError]
    on stderr and ends with status 1. *)
Theorem one_untimed_word_fails_alignment (E : Align.env) (a : Align.args)
    (contents : pystr) (mm : handle * handle) (audio : ndarray) (q : float)
    (res : pyval) (wss : list (list dict)) :
  reaches_imports E a contents ->
  Align.import_whisperx_torch E = None ->
  Align.load_align_model E (Align.language a) (align_device E a) = Ok mm ->
  Align.load_audio E (Align.audio_path a) = Ok audio ->
  int_truediv (Z.of_N (nd_len audio)) 16000 = Ok q ->
  Align.align E (one_segment (strip contents) q) (fst mm) (snd mm) audio
    (align_device E a) = Ok res ->
  nested_words res = Some wss ->
  forallb timed (List.concat wss) = false ->
  exists msg,
    run (Align.main E)
    = exited [ELoadAlignModel (Align.language a) (align_device E a);
              ELoadAudio (Align.audio_path a);
              EAlign (one_segment (strip contents) q) (fst mm) (snd mm) audio
                (align_device E a);
              EPrint Stderr (PDict [(lit "error", PStr msg);
                                    (lit "type", PStr (lit "TypeError"))])] 1.
Proof.
  intros Hreach Hi Hm Ha Hq Hr Hn Ht.
  destruct (align_flatten_untimed _ Hn Ht) as (e & He & Hty).
  exists (exc_msg e).
  erewrite align_failed_run;
    [ | eassumption | assumption
      | eapply flatten_failure; eassumption ].
  rewrite Hty. reflexivity.
Qed.

Lemma one_untimed_word_fails_alignment_witness :
  exists msg,
    run (Align.main Cases.align_untimed)
    = exited [ELoadAlignModel (lit "yi") (lit "cpu");
              ELoadAudio (lit "a.wav");
              EAlign (one_segment (lit "hello world") Samples.f2_0)
                (Handle 1) (Handle 2) {| nd_len := 32000 |} (lit "cpu");
              EPrint Stderr (PDict [(lit "error", PStr msg);
                                    (lit "type", PStr (lit "TypeError"))])] 1.
Proof.
  apply (@one_untimed_word_fails_alignment Cases.align_untimed
           (Align.with_defaults (lit "a.wav") (lit "t.txt"))
           (lit " hello world" ++ [10%N])%list
           (Handle 1, Handle 2) {| nd_len := 32000 |} Samples.f2_0
           Cases.untimed_result
           [[ [(lit "word", PStr (lit "hello"));
               (lit "start", PFloat Samples.f0_12345);
               (lit "end", PFloat Samples.f0_5)];
              [(lit "word", PStr (lit "world"));
               (lit "start", PNone);
               (lit "end", PFloat Samples.f2_0)] ]]).
  - unfold reaches_imports. repeat split; try reflexivity.
    vm_compute. discriminate.
  - reflexivity.
  - reflexivity.
  - reflexivity.
  - reflexivity.
  - reflexivity.
  - reflexivity.
  - reflexivity.
Defined.

Section Concatenation.

Variable record : pyval -> result pyval.

Let flat (segs : list pyval) (out : list pyval) : Prop :=
  exists wss,
    Forall2 (fun s ws => words_of s = Ok ws) segs wss
    /\ Forall2 (fun x y => record x = Ok y) (List.concat wss) out.

Lemma flat_app (s1 s2 : list pyval) (out : list pyval) :
  flat (s1 ++ s2) out <->
  exists o1 o2, flat s1 o1 /\ flat s2 o2 /\ out = (o1 ++ o2)%list.
Proof.
  unfold flat. split.
  - intros (wss & Hs & Hr).
    apply Forall2_app_inv_l in Hs. destruct Hs as (w1 & w2 & H1 & H2 & ->).
    rewrite concat_app in Hr.
    apply Forall2_app_inv_l in Hr. destruct Hr as (o1 & o2 & R1 & R2 & ->).
    exists o1, o2. repeat split; eauto.
  - intros (o1 & o2 & (w1 & H1 & R1) & (w2 & H2 & R2) & ->).
    exists (w1 ++ w2)%list. split.
    + apply Forall2_app; assumption.
    + rewrite concat_app. apply Forall2_app; assumption.
Qed.

End Concatenation.

Lemma segments_of_list (segs : list pyval) :
  segments_of (PDict [(lit "segments", PList segs)]) = Ok segs.
Proof. reflexivity. Qed.

(** X17: flattening goes segment by segment.  For either tool the flat
    list of a result whose segments are [s1] followed by [s2] is the flat
    list of [s1] followed by that of [s2], and it exists exactly when both
    exist: the words of one segment never change what another segment
    gives. *)
Theorem flattening_distributes :
  (forall s1 s2 out,
      Align.extract_words (PDict [(lit "segments", PList (s1 ++ s2))]) = Ok out
      <-> exists o1 o2,
            Align.extract_words (PDict [(lit "segments", PList s1)]) = Ok o1
            /\ Align.extract_words (PDict [(lit "segments", PList s2)]) = Ok o2
            /\ out = (o1 ++ o2)%list)
  /\ (forall s1 s2 out,
      Whisper.extract_words (PDict [(lit "segments", PList (s1 ++ s2))]) = Ok out
      <-> exists o1 o2,
            Whisper.extract_words (PDict [(lit "segments", PList s1)]) = Ok o1
            /\ Whisper.extract_words (PDict [(lit "segments", PList s2)]) = Ok o2
            /\ out = (o1 ++ o2)%list).
Proof.
  split; intros s1 s2 out.
  - rewrite align_extract_words_ok. split.
    + intros (segs & wss & Hs & Hw & Hr).
      rewrite segments_of_list in Hs. inversion Hs; subst segs.
      destruct (proj1 (flat_app Align.word_record s1 s2 out))
        as (o1 & o2 & (w1 & H1 & R1) & (w2 & H2 & R2) & ->); [eauto|].
      exists o1, o2. repeat split;
        apply align_extract_words_ok; eauto using segments_of_list.
    + intros (o1 & o2 & H1 & H2 & ->).
      apply align_extract_words_ok in H1, H2.
      destruct H1 as (g1 & w1 & G1 & H1 & R1).
      destruct H2 as (g2 & w2 & G2 & H2 & R2).
      rewrite segments_of_list in G1, G2.
      inversion G1; subst g1. inversion G2; subst g2.
      destruct (proj2 (flat_app Align.word_record s1 s2 (o1 ++ o2)))
        as (wss & Hs & Hr); [exists o1, o2; repeat split; eauto|].
      exists (s1 ++ s2)%list, wss. repeat split; assumption.
  - rewrite whisper_extract_words_ok. split.
    + intros (segs & wss & Hs & Hw & Hr).
      rewrite segments_of_list in Hs. inversion Hs; subst segs.
      destruct (proj1 (flat_app Whisper.word_record s1 s2 out))
        as (o1 & o2 & (w1 & H1 & R1) & (w2 & H2 & R2) & ->); [eauto|].
      exists o1, o2. repeat split;
        apply whisper_extract_words_ok; eauto using segments_of_list.
    + intros (o1 & o2 & H1 & H2 & ->).
      apply whisper_extract_words_ok in H1, H2.
      destruct H1 as (g1 & w1 & G1 & H1 & R1).
      destruct H2 as (g2 & w2 & G2 & H2 & R2).
      rewrite segments_of_list in G1, G2.
      inversion G1; subst g1. inversion G2; subst g2.
      destruct (proj2 (flat_app Whisper.word_record s1 s2 (o1 ++ o2)))
        as (wss & Hs & Hr); [exists o1, o2; repeat split; eauto|].
      exists (s1 ++ s2)%list, wss. repeat split; assumption.
Qed.

(* ===================================================================== *)
(** ** Whitespace around the transcript, and the shape of the output *)
(* ===================================================================== *)

(** X18: whitespace around the transcript has no effect.  Two transcript
    files that differ only in leading and trailing whitespace give the
    same run of the alignment tool: the same calls with the same
    arguments, the same document, the same status. *)
Theorem surrounding_whitespace_changes_nothing (E : Align.env) (c : pystr) :
  run (Align.main (set_read_text E (fun _ => Ok (strip c))))
  = run (Align.main (set_read_text E (fun _ => Ok c))).
Proof.
  unfold Align.main, set_read_text.
  cbn [Align.argv Align.path_exists Align.read_text
       Align.import_whisperx_torch Align.cuda_is_available].
  destruct (Align.argv E) as [a| |]; [|reflexivity|reflexivity].
  cbn [parse_args ret bind app].
  destruct (Align.path_exists E (Align.audio_path a)); [|reflexivity].
  destruct (Align.path_exists E (Align.text_path a)); [|reflexivity].
  cbn [negb when ret bind lift app].
  rewrite strip_idempotent. reflexivity.
Qed.

Lemma Forall2_Forall_r {A B} (R : A -> B -> Prop) (P : B -> Prop)
    (l : list A) (l' : list B) :
  Forall2 R l l' -> (forall x y, R x y -> P y) -> Forall P l'.
Proof. induction 1; intros H'; constructor; eauto. Qed.

Lemma py_round3_is_number (v r : pyval) :
  py_round3 v = Ok r -> is_number r = true.
Proof.
  destruct v; simpl; intros H; try discriminate; inversion H; reflexivity.
Qed.

Lemma align_word_record_schema (x w : pyval) :
  Align.word_record x = Ok w ->
  exists word s e,
    is_number s = true /\ is_number e = true
    /\ (w = PDict [(lit "word", word); (lit "start", s); (lit "end", e)]
        \/ exists c,
             is_number c = true
             /\ w = PDict [(lit "word", word); (lit "start", s); (lit "end", e);
                           (lit "confidence", c)]).
Proof.
  intros H. destruct (align_word_record_inv _ H) as [d ->].
  rewrite align_word_record_dict in H.
  destruct (py_round3 (dict_get d (lit "start") (PInt 0))) as [s|] eqn:Hs;
    simpl in H; [|discriminate].
  destruct (py_round3 (dict_get d (lit "end") (PInt 0))) as [e|] eqn:He;
    simpl in H; [|discriminate].
  apply py_round3_is_number in Hs, He.
  exists (dict_get d (lit "word") (PStr [])), s, e.
  split; [exact Hs|]. split; [exact He|].
  destruct (dict_lookup (lit "score") d) as [score|].
  - destruct (py_round3 score) as [c|] eqn:Hc; simpl in H; [|discriminate].
    apply py_round3_is_number in Hc. inversion H; subst w. eauto.
  - inversion H; subst w. auto.
Qed.

(** X19: the shape of a successful alignment.  The success object has the
    keys [success], [language], [duration], [word_count] and [words], in
    that order, with a float as duration; every entry of [words] is an
    object with the keys [word], [start], [end] and, last and only
    sometimes, [confidence], and its start, end and confidence are numbers,
    never [None] or text. *)
Theorem alignment_output_shape (E : Align.env) (doc : pyval) :
  In (EPrint Stdout doc) (trace (run (Align.main E))) ->
  exists lang seconds words,
    doc = PDict [(lit "success", PBool true);
                 (lit "language", PStr lang);
                 (lit "duration", PFloat seconds);
                 (lit "word_count", PInt (Z.of_nat (List.length words)));
                 (lit "words", PList words)]
    /\ Forall
         (fun w =>
            exists word s e,
              is_number s = true /\ is_number e = true
              /\ (w = PDict [(lit "word", word); (lit "start", s);
                             (lit "end", e)]
                  \/ exists c,
                       is_number c = true
                       /\ w = PDict [(lit "word", word); (lit "start", s);
                                     (lit "end", e); (lit "confidence", c)]))
         words.
Proof.
  intros Hin.
  destruct (align_success_inv E doc Hin)
    as (a & contents & mm & audio & q & res & words
        & _ & _ & _ & _ & _ & _ & Hw & _ & ->).
  exists (Align.language a), (float_round3 q), words.
  split; [reflexivity|].
  apply align_extract_words_ok in Hw.
  destruct Hw as (segs & wss & _ & _ & Hrec).
  eapply Forall2_Forall_r; [exact Hrec|].
  intros x w Hxw. apply (align_word_record_schema _ Hxw).
Qed.

Lemma alignment_output_shape_witness :
  exists lang seconds words,
    align_output (Align.with_defaults (lit "a.wav") (lit "t.txt"))
      Samples.f2_0
      [PDict [(lit "word", PStr (lit "hello"));
              (lit "start", PFloat Samples.f0_123);
              (lit "end", PFloat Samples.f0_5);
              (lit "confidence", PFloat Samples.f0_5)];
       PDict [(lit "word", PStr (lit "world"));
              (lit "start", PInt 0);
              (lit "end", PInt 0)]]
    = PDict [(lit "success", PBool true);
             (lit "language", PStr lang);
             (lit "duration", PFloat seconds);
             (lit "word_count", PInt (Z.of_nat (List.length words)));
             (lit "words", PList words)]
    /\ Forall
         (fun w =>
            exists word s e,
              is_number s = true /\ is_number e = true
              /\ (w = PDict [(lit "word", word); (lit "start", s);
                             (lit "end", e)]
                  \/ exists c,
                       is_number c = true
                       /\ w = PDict [(lit "word", word); (lit "start", s);
                                     (lit "end", e); (lit "confidence", c)]))
         words.
Proof.
  apply (@alignment_output_shape Samples.align_ok).
  right; right; right; left. reflexivity.
Defined.

(** X20: the shape of a successful transcription.  The success object has
    the keys [text], [language], [duration], [segments] and [words], in
    that order, and every entry of [words] is an object with exactly the
    keys [word], [start], [end] and [probability], in that order. *)
Theorem transcription_output_shape (E : Whisper.env) (doc : pyval) :
  In (EPrint Stdout doc) (trace (run (Whisper.main E))) ->
  whisper_success_doc doc = true ->
  exists text lang duration segments words,
    doc = PDict [(lit "text", text);
                 (lit "language", lang);
                 (lit "duration", duration);
                 (lit "segments", segments);
                 (lit "words", PList words)]
    /\ Forall
         (fun w =>
            exists word s e p,
              w = PDict [(lit "word", word); (lit "start", s); (lit "end", e);
                         (lit "probability", p)])
         words.
Proof.
  intros Hin Hdoc.
  destruct (whisper_success_inv E doc Hin Hdoc)
    as (a & m & d & words & _ & _ & _ & _ & Hw & _ & ->).
  do 4 eexists. exists words. split; [reflexivity|].
  apply whisper_extract_words_ok in Hw.
  destruct Hw as (segs & wss & _ & _ & Hrec).
  eapply Forall2_Forall_r; [exact Hrec|].
  intros x w Hxw. cbv beta in Hxw.
  destruct (whisper_word_record_inv _ Hxw) as [sd ->].
  rewrite whisper_word_record_dict in Hxw. inversion Hxw. eauto.
Qed.

Lemma transcription_output_shape_witness :
  exists text lang duration segments words,
    whisper_output (Whisper.with_defaults (lit "a.wav"))
      [(lit "text", PStr (lit " hello"));
       (lit "segments",
        PList [PDict [(lit "words",
                       PList [PDict [(lit "word", PStr (lit " hello"));
                                     (lit "start", PFloat Samples.f2_0);
                                     (lit "end", PFloat Samples.f0_12345)]])]])]
      [PDict [(lit "word", PStr (lit " hello"));
              (lit "start", PFloat Samples.f2_0);
              (lit "end", PFloat Samples.f0_12345);
              (lit "probability", PNone)]]
    = PDict [(lit "text", text);
             (lit "language", lang);
             (lit "duration", duration);
             (lit "segments", segments);
             (lit "words", PList words)]
    /\ Forall
         (fun w =>
            exists word s e p,
              w = PDict [(lit "word", word); (lit "start", s); (lit "end", e);
                         (lit "probability", p)])
         words.
Proof.
  apply (@transcription_output_shape Samples.whisper_ok).
  - right; right; left. reflexivity.
  - reflexivity.
Defined.

(* ===================================================================== *)
(** ** Word records that lack a field *)
(* ===================================================================== *)



